(** * Cyclone monitoring dashboard: a shallow embedding of [cyclone_monitoring.py]

    The script has two fetch functions and a straight-line page body.

    - [fetch_real_time_cyclones] (lines 15-35) reads the live feed with
      [requests], decodes the JSON body, turns the storm list into rows and
      builds a frame from them.
    - [fetch_last_50_cyclones] (lines 38-59) reads the archive with
      [pandas.read_csv], keeps seven columns, drops incomplete rows, parses
      the timestamps, sorts, groups by name, takes [first()] of each group
      and keeps [head(50)].
    - lines 61-101 call both and branch on [is not None].

    What the environment hands to the script is the input of the model: the
    reply of each HTTP request (or the transport failure), with the body as
    the decoder of the library sees it (a JSON value, or the frame that
    [read_csv(..., skiprows=[1])] builds).  The Streamlit calls are recorded
    as a list of events, in program order.  Exceptions are values of an error
    monad, so that what an [except] clause catches and what it lets through
    is explicit.

    Four calls into pandas and plotly decide on a whole column or a whole
    frame, and their answer is a parameter of the model, so that every
    general statement holds whatever they answer:
    - the order in which [groupby] sorts the keys of the Name column, which
      is the order of the column's dtype ([key_order]);
    - [pd.to_datetime] on the Date column ([to_datetime], a cell in the
      context of its column);
    - the dtype conversion of [pd.DataFrame] on each column of the live rows
      ([convert_column]);
    - the validation of [px.scatter_mapbox] ([scatter_mapbox_error]).
    An instance of each is given further down, for concrete runs.

    Not modelled: the [st.cache_data] decorators (wall-clock time). *)

From Stdlib Require Import List String Ascii ZArith Bool Lia PeanoNat.
From Stdlib Require Import Sorting.Sorted Sorting.Permutation.
From Stdlib Require Import Structures.OrderedTypeEx.
Import ListNotations.

Local Open Scope string_scope.
Local Open Scope Z_scope.

(** ** Exceptions and the error monad *)

(** The exception classes the two functions can meet.  The first three are
    subclasses of [requests.exceptions.RequestException] (the decoding error
    of [response.json()] is one since requests 2.27); the others are not. *)
Inductive exn_class :=
| ConnectionError      (* requests: transport failure *)
| HTTPError            (* requests: raise_for_status *)
| JSONDecodeError      (* requests.exceptions.JSONDecodeError *)
| AttributeError
| TypeError
| KeyError
| ValueError
| OverflowError
| URLError             (* urllib, under read_csv: transport failure *)
| UrlHTTPError         (* urllib.error.HTTPError *)
| ParserError          (* pandas: the body is not a CSV table *)
| DateParseError.      (* pandas.to_datetime *)

Record exn := mkExn { exn_cls : exn_class; exn_str : string }.

(** [isinstance(e, requests.exceptions.RequestException)] *)
Definition is_RequestException (e : exn) : bool :=
  match exn_cls e with
  | ConnectionError | HTTPError | JSONDecodeError => true
  | _ => false
  end.

Inductive outcome (A : Type) : Type :=
| Ok (a : A)
| Raise (e : exn).
Arguments Ok {A} a.
Arguments Raise {A} e.

Definition bind {A B} (c : outcome A) (k : A -> outcome B) : outcome B :=
  match c with
  | Ok a => k a
  | Raise e => Raise e
  end.

Notation "x <- c ;; k" := (bind c (fun x => k))
  (at level 61, c at next level, right associativity).

Fixpoint mapM {A B} (f : A -> outcome B) (l : list A) : outcome (list B) :=
  match l with
  | [] => Ok []
  | a :: l' => b <- f a ;; bs <- mapM f l' ;; Ok (b :: bs)
  end.

(** ** HTTP replies *)

(** What a GET yields: no reply at all, or a status line and a body. *)
Inductive reply (B : Type) : Type :=
| Unreachable (reason : string)
| Reply (status : Z) (body : B).
Arguments Unreachable {B} reason.
Arguments Reply {B} status body.

(** ** JSON values, as [response.json()] returns them *)

(** A number with exponent 0 is a Python int; with any other exponent it is
    a Python float. *)
#[local] Unset Elimination Schemes.
Inductive json :=
| JNull
| JBool (b : bool)
| JNum (mantissa exponent : Z)          (* mantissa * 10 ^ exponent *)
| JStr (s : string)
| JArr (items : list json)
| JObj (fields : list (string * json)). (* a dict: keys are distinct *)
#[local] Set Elimination Schemes.

Fixpoint assoc {V} (k : string) (kv : list (string * V)) : option V :=
  match kv with
  | [] => None
  | (k', v) :: rest => if String.eqb k k' then Some v else assoc k rest
  end.

(** [d.get(key, default)] *)
Definition py_get (d : json) (key : string) (default : json) : outcome json :=
  match d with
  | JObj kv => Ok (match assoc key kv with Some v => v | None => default end)
  | _ => Raise (mkExn AttributeError "object has no attribute 'get'")
  end.

(** [d[key]] with a string key *)
Definition py_getitem (d : json) (key : string) : outcome json :=
  match d with
  | JObj kv =>
      match assoc key kv with
      | Some v => Ok v
      | None => Raise (mkExn KeyError key)
      end
  | JStr _ => Raise (mkExn TypeError "string indices must be integers")
  | JArr _ => Raise (mkExn TypeError "list indices must be integers or slices")
  | _ => Raise (mkExn TypeError "object is not subscriptable")
  end.

(** [for x in v]: the elements the loop visits.  A dict yields its keys and a
    string its characters (here: its bytes, each as a one-byte string). *)
Fixpoint chars (s : string) : list json :=
  match s with
  | EmptyString => []
  | String c s' => JStr (String c EmptyString) :: chars s'
  end.

Definition py_iter (v : json) : outcome (list json) :=
  match v with
  | JArr items => Ok items
  | JObj kv => Ok (map (fun p => JStr (fst p)) kv)
  | JStr s => Ok (chars s)
  | _ => Raise (mkExn TypeError "object is not iterable")
  end.

(** ** Tables and page events *)

(** One dict of [active_storms] (lines 24-30).  The values are those of the
    feed. *)
Record live_row := mkLive {
  lName : json;
  lWind : json;
  lPressure : json;
  lLatitude : json;
  lLongitude : json
}.

(** A cell of the live frame.  [pd.DataFrame] gives each column one dtype:
    a cell keeps the value of the feed, or holds the float64 the value was
    turned into. *)
Inductive value :=
| Kept (v : json)        (* the value of the feed, with its Python type *)
| Float64 (m e : Z)      (* the float64 m * 2 ^ e, made from an int *)
| NaN.                   (* the float64 NaN, made from None *)

(** A row of the live frame (line 32). *)
Record frame_row := mkFrame {
  fName : value;
  fWind : value;
  fPressure : value;
  fLatitude : value;
  fLongitude : value
}.

(** A cell of a frame read from CSV: [None] is NaN (a missing value).  A
    present cell holds the decoded value written as text, one text per
    value. *)
Definition cell := option string.

(** A timestamp: nanoseconds since the epoch; [None] is NaT. *)
Definition timestamp := option Z.

(** A row of the historical table after the rename of line 45 and the
    conversion of line 50. *)
Record hist_row := mkHist {
  Name : cell;
  Year : cell;
  Date : timestamp;
  Wind : cell;
  Pressure : cell;
  Latitude : cell;
  Longitude : cell
}.

Inductive figure :=
| scatter_mapbox (data : list frame_row)
| line (data : list hist_row).

Inductive ui :=
| st_title (s : string)
| st_error (s : string)
| st_subheader (s : string)
| st_write_live (t : list frame_row)
| st_write_hist (t : list hist_row)
| st_plotly_chart (f : figure)
| st_success (s : string)
| st_warning (s : string).

(** ** The live fetch (lines 15-35) *)

Definition live_reply := reply (option json).  (* [None]: body is not JSON *)

(** [requests.get(URL)] then [raise_for_status()] then [json()] *)
Definition get_json (r : live_reply) : outcome json :=
  match r with
  | Unreachable reason => Raise (mkExn ConnectionError reason)
  | Reply status body =>
      if (400 <=? status) && (status <? 600)
      then Raise (mkExn HTTPError "HTTP error status")
      else match body with
           | None => Raise (mkExn JSONDecodeError "Expecting value")
           | Some data => Ok data
           end
  end.

(** The dict literal of lines 24-30; the keys are read in this order. *)
Definition storm_row (storm : json) : outcome live_row :=
  n <- py_getitem storm "name" ;;
  w <- py_getitem storm "wind" ;;
  p <- py_getitem storm "pressure" ;;
  la <- py_getitem storm "lat" ;;
  lo <- py_getitem storm "lon" ;;
  Ok (mkLive n w p la lo).

Section Live.

(** The dtype conversion [pd.DataFrame] applies to one column of a list of
    dicts: given the values of the column, an exception, or what becomes of
    each value in that column. *)
Variable convert_column : list json -> outcome (json -> value).

(** [pd.DataFrame(active_storms)]: one row per dict, in order, each column
    converted on its own. *)
Definition pd_DataFrame (active_storms : list live_row) : outcome (list frame_row) :=
  n <- convert_column (map lName active_storms) ;;
  w <- convert_column (map lWind active_storms) ;;
  p <- convert_column (map lPressure active_storms) ;;
  la <- convert_column (map lLatitude active_storms) ;;
  lo <- convert_column (map lLongitude active_storms) ;;
  Ok (map (fun r => mkFrame (n (lName r)) (w (lWind r)) (p (lPressure r))
                            (la (lLatitude r)) (lo (lLongitude r)))
          active_storms).

(** Lines 18-32, the body of the [try]. *)
Definition real_time_body (r : live_reply) : outcome (option (list frame_row)) :=
  data <- get_json r ;;
  storms <- py_get data "storms" (JArr []) ;;
  entries <- py_iter storms ;;
  active_storms <- mapM storm_row entries ;;
  match active_storms with
  | [] => Ok None
  | _ => t <- pd_DataFrame active_storms ;; Ok (Some t)
  end.

(** The function: events logged, and the value returned or the exception that
    leaves it.  Only a [RequestException] is caught (line 33). *)
Definition fetch_real_time_cyclones (r : live_reply)
  : list ui * outcome (option (list frame_row)) :=
  match real_time_body r with
  | Ok v => ([], Ok v)
  | Raise e =>
      if is_RequestException e
      then ([st_error ("⚠️ Error fetching real-time cyclone data: " ++ exn_str e)],
            Ok None)
      else ([], Raise e)
  end.

End Live.

(** ** The historical fetch (lines 38-59) *)

(** A frame as [read_csv] builds it: the header, and one list of cells per
    data line (the line after the header is skipped by [skiprows=[1]]). *)
Record DataFrame := mkDF {
  columns : list string;
  rows : list (list cell)
}.

Definition csv_reply := reply (option DataFrame). (* [None]: not a CSV table *)

(** [pd.read_csv(URL, skiprows=[1])]: urllib opens the URL and raises on a
    transport failure or on a final status outside 2xx; then the parser
    runs. *)
Definition read_csv (r : csv_reply) : outcome DataFrame :=
  match r with
  | Unreachable reason => Raise (mkExn URLError reason)
  | Reply status body =>
      if (200 <=? status) && (status <? 300)
      then match body with
           | None => Raise (mkExn ParserError "Error tokenizing data")
           | Some df => Ok df
           end
      else Raise (mkExn UrlHTTPError "HTTP Error")
  end.

(** The seven columns kept by line 44, under their names in the archive. *)
Record raw_row := mkRaw {
  NAME : cell;
  SEASON : cell;
  ISO_TIME : cell;
  WMO_WIND : cell;
  WMO_PRES : cell;
  LAT : cell;
  LON : cell
}.

Fixpoint index_of (c : string) (cols : list string) : option nat :=
  match cols with
  | [] => None
  | c' :: rest =>
      if String.eqb c c' then Some O
      else match index_of c rest with
           | Some i => Some (S i)
           | None => None
           end
  end.

Definition column (df : DataFrame) (c : string) : outcome nat :=
  match index_of c (columns df) with
  | Some i => Ok i
  | None => Raise (mkExn KeyError (c ++ " not in index"))
  end.

(** [df[["NAME", "SEASON", "ISO_TIME", "WMO_WIND", "WMO_PRES", "LAT", "LON"]]] *)
Definition select_columns (df : DataFrame) : outcome (list raw_row) :=
  n <- column df "NAME" ;;
  y <- column df "SEASON" ;;
  t <- column df "ISO_TIME" ;;
  w <- column df "WMO_WIND" ;;
  p <- column df "WMO_PRES" ;;
  la <- column df "LAT" ;;
  lo <- column df "LON" ;;
  Ok (map (fun r => mkRaw (nth n r None) (nth y r None) (nth t r None)
                          (nth w r None) (nth p r None)
                          (nth la r None) (nth lo r None))
          (rows df)).

Definition notna {A} (c : option A) : bool :=
  match c with Some _ => true | None => false end.

(** A row that [dropna()] keeps: no NaN in any of the seven columns. *)
Definition complete (r : raw_row) : bool :=
  notna (NAME r) && notna (SEASON r) && notna (ISO_TIME r) &&
  notna (WMO_WIND r) && notna (WMO_PRES r) && notna (LAT r) && notna (LON r).

Definition dropna (l : list raw_row) : list raw_row := filter complete l.

(** Descending order on timestamps with NaT after every date, as
    [sort_values(by="Date", ascending=False)] places them. *)
Definition date_geb (a b : timestamp) : bool :=
  match a, b with
  | Some x, Some y => y <=? x
  | Some _, None => true
  | None, Some _ => false
  | None, None => true
  end.

Fixpoint insert_desc (r : hist_row) (l : list hist_row) : list hist_row :=
  match l with
  | [] => [r]
  | y :: l' => if date_geb (Date r) (Date y) then r :: l else y :: insert_desc r l'
  end.

(** The sort, as a stable insertion sort.  The sort kind pandas uses by
    default does not promise stability; a different kind could only change
    the order among rows of equal date, and the properties of [first()]
    below are proved for every frame in descending date order
    ([groupby_first_spec]). *)
Definition sort_values_desc (l : list hist_row) : list hist_row :=
  fold_right insert_desc [] l.

(** The order of the keys of the Name column.  [groupby] sorts its keys in
    the order of the column's dtype: code point order when [read_csv] made
    the column one of strings, numeric order when it made it a numeric
    column.  Which one applies is decided when the archive is decoded; the
    model asks of it what both have: a strict total order. *)
Class key_order := {
  key_compare : string -> string -> comparison;
  key_compare_eq : forall a b, key_compare a b = Eq -> a = b;
  key_compare_antisym : forall a b, key_compare a b = CompOpp (key_compare b a);
  key_compare_trans :
    forall a b c, key_compare a b = Lt -> key_compare b c = Lt -> key_compare a c = Lt
}.

Definition in_group (k : string) (r : hist_row) : bool :=
  match Name r with
  | Some n => String.eqb n k
  | None => false
  end.

(** The rows of one group, in the order of the frame. *)
Definition group (k : string) (l : list hist_row) : list hist_row :=
  filter (in_group k) l.

(** The first entry of a column that is not null. *)
Fixpoint first_valid {A} (col : list (option A)) : option A :=
  match col with
  | [] => None
  | Some a :: _ => Some a
  | None :: rest => first_valid rest
  end.

(** [first()] on one group, column by column; [reset_index()] puts the key
    back as the Name column. *)
Definition first (k : string) (g : list hist_row) : hist_row :=
  mkHist (Some k)
         (first_valid (map Year g))
         (first_valid (map Date g))
         (first_valid (map Wind g))
         (first_valid (map Pressure g))
         (first_valid (map Latitude g))
         (first_valid (map Longitude g)).

Definition head {A} (n : nat) (l : list A) : list A := firstn n l.

Section Rollup.

Context {O : key_order}.

(** The group keys: [groupby] sorts them (its default [sort=True]) and leaves
    out NaN keys. *)
Fixpoint insert_key (k : string) (ks : list string) : list string :=
  match ks with
  | [] => [k]
  | k' :: rest =>
      match key_compare k k' with
      | Lt => k :: ks
      | Eq => ks
      | Gt => k' :: insert_key k rest
      end
  end.

Definition group_keys (l : list hist_row) : list string :=
  fold_right (fun r ks => match Name r with
                          | Some k => insert_key k ks
                          | None => ks
                          end) [] l.

Definition groupby_first (l : list hist_row) : list hist_row :=
  map (fun k => first k (group k l)) (group_keys l).

(** Lines 53-54. *)
Definition latest (l : list hist_row) : list hist_row :=
  head 50 (groupby_first (sort_values_desc l)).

End Rollup.

Section Historical.

Context {O : key_order}.

(** [pd.to_datetime] on the Date column: what becomes of one cell of a given
    column, a timestamp, NaT, or the exception the call raises.  The column
    is part of the question because pandas settles the format on the whole
    column (from its first cell) before it reads each cell. *)
Variable to_datetime : list cell -> string -> outcome timestamp.

(** Lines 45-50 on one row of the column [col]: the rename and the
    conversion of the Date cell (a NaN cell would become NaT). *)
Definition convert (col : list cell) (r : raw_row) : outcome hist_row :=
  d <- match ISO_TIME r with
       | Some s => to_datetime col s
       | None => Ok None
       end ;;
  Ok (mkHist (NAME r) (SEASON r) d (WMO_WIND r) (WMO_PRES r) (LAT r) (LON r)).

(** Lines 45-50 on the frame [df_filtered]. *)
Definition convert_dates (df_filtered : list raw_row) : outcome (list hist_row) :=
  mapM (convert (map ISO_TIME df_filtered)) df_filtered.

(** Lines 41-50: the rows that survive [dropna], with their dates. *)
Definition post_filter (r : csv_reply) : outcome (list hist_row) :=
  df <- read_csv r ;;
  selected <- select_columns df ;;
  convert_dates (dropna selected).

(** Lines 41-56, the body of the [try]. *)
Definition last_50_body (r : csv_reply) : outcome (list hist_row) :=
  df_filtered <- post_filter r ;;
  Ok (latest df_filtered).

(** The function: every exception is caught (line 57). *)
Definition fetch_last_50_cyclones (r : csv_reply)
  : list ui * outcome (option (list hist_row)) :=
  match last_50_body r with
  | Ok t => ([], Ok (Some t))
  | Raise e =>
      ([st_error ("⚠️ Error fetching last 50 cyclones: " ++ exn_str e)], Ok None)
  end.

(** ** The page (lines 6 and 61-101) *)

Variable convert_column : list json -> outcome (json -> value).

(** The exception [px.scatter_mapbox] raises on a frame, if it raises one
    (it validates the marker sizes it is given). *)
Variable scatter_mapbox_error : list frame_row -> option exn.

Definition page_title : ui := st_title "🌪️ Real-Time & Recent Cyclone Monitoring".

(** Lines 66-84: the events shown, and whether the section ran to its end. *)
Definition render_live (d : option (list frame_row)) : list ui * outcome unit :=
  match d with
  | Some t =>
      match scatter_mapbox_error t with
      | Some e => ([st_subheader "📌 Active Cyclones (Real-Time)";
                   st_write_live t], Raise e)
      | None => ([st_subheader "📌 Active Cyclones (Real-Time)";
                  st_write_live t;
                  st_plotly_chart (scatter_mapbox t)], Ok tt)
      end
  | None => ([st_success "✅ No active cyclones detected."], Ok tt)
  end.

(** Lines 87-101. *)
Definition render_hist (d : option (list hist_row)) : list ui :=
  match d with
  | Some t => [st_subheader "📜 Last 50 Cyclones (Historical)";
               st_write_hist t;
               st_plotly_chart (line t)]
  | None => [st_warning "⚠️ Could not retrieve the last 50 cyclones."]
  end.

(** The script, top to bottom: the events shown, and whether it ran to its
    end or an exception left it. *)
Definition page (live : live_reply) (hist : csv_reply) : list ui * outcome unit :=
  let (log1, r1) := fetch_real_time_cyclones convert_column live in
  match r1 with
  | Raise e => (page_title :: log1, Raise e)
  | Ok real_time_data =>
      let (log2, r2) := fetch_last_50_cyclones hist in
      match r2 with
      | Raise e => (page_title :: log1 ++ log2, Raise e)
      | Ok past_cyclone_data =>
          let (shown, r3) := render_live real_time_data in
          match r3 with
          | Raise e => (page_title :: log1 ++ log2 ++ shown, Raise e)
          | Ok _ =>
              (page_title :: log1 ++ log2
                 ++ shown ++ render_hist past_cyclone_data,
               Ok tt)
          end
      end
  end.

End Historical.

(** ** Instances of the library calls, for concrete runs *)

(** Code point order, the order of a Name column of strings: on UTF-8 text
    it is the byte-wise order of [String.compare]. *)
#[export] Instance code_point_order : key_order.
Proof.
  refine {| key_compare := String.compare |}.
  - exact String.compare_eq_iff.
  - exact String.compare_antisym.
  - intros a b c H1 H2.
    apply String_as_OT.cmp_lt in H1. apply String_as_OT.cmp_lt in H2.
    apply String_as_OT.cmp_lt. eapply String_as_OT.lt_trans; eassumption.
Defined.

(** Shorter first, then code point order.  On integers from 0 up, written
    without sign or leading zero, this is the numeric order, the order of a
    Name column that [read_csv] made an integer column. *)
Definition shortlex (a b : string) : comparison :=
  match Nat.compare (String.length a) (String.length b) with
  | Eq => String.compare a b
  | Lt => Lt
  | Gt => Gt
  end.

Definition shortlex_order : key_order.
Proof.
  refine {| key_compare := shortlex |}; unfold shortlex.
  - intros a b. destruct (Nat.compare _ _); try discriminate.
    apply String.compare_eq_iff.
  - intros a b. rewrite (Nat.compare_antisym (String.length a) (String.length b)).
    destruct (Nat.compare (String.length a) (String.length b)); simpl; try reflexivity.
    apply String.compare_antisym.
  - intros a b c.
    destruct (Nat.compare_spec (String.length a) (String.length b)) as [E1|L1|G1];
      try discriminate;
      destruct (Nat.compare_spec (String.length b) (String.length c)) as [E2|L2|G2];
      try discriminate; intros H1 H2.
    + rewrite E1, E2, Nat.compare_refl.
      apply String_as_OT.cmp_lt in H1. apply String_as_OT.cmp_lt in H2.
      apply String_as_OT.cmp_lt. eapply String_as_OT.lt_trans; eassumption.
    + rewrite E1. apply Nat.compare_lt_iff in L2. rewrite L2. reflexivity.
    + rewrite <- E2. apply Nat.compare_lt_iff in L1. rewrite L1. reflexivity.
    + assert (L : (String.length a < String.length c)%nat) by lia.
      apply Nat.compare_lt_iff in L. rewrite L. reflexivity.
Defined.

(** A timestamp parser for the format of the archive: it reads
    [YYYY-MM-DD HH:MM:SS], the form of the ISO_TIME column, gives NaT on the
    literal [NaT], and raises on anything else. *)

Definition digit (c : ascii) : option Z :=
  let n := Z.of_N (N_of_ascii c) in
  if (48 <=? n) && (n <=? 57) then Some (n - 48) else None.

Definition num2 (a b : ascii) : option Z :=
  match digit a, digit b with
  | Some x, Some y => Some (10 * x + y)
  | _, _ => None
  end.

Definition is_leap (y : Z) : bool :=
  ((y mod 4 =? 0) && negb (y mod 100 =? 0)) || (y mod 400 =? 0).

Definition days_in_month (y m : Z) : Z :=
  if m =? 2 then (if is_leap y then 29 else 28)
  else if (m =? 4) || (m =? 6) || (m =? 9) || (m =? 11) then 30
  else 31.

(** Days from 1970-01-01 to the given civil date. *)
Definition days_from_civil (y m d : Z) : Z :=
  let y' := if m <=? 2 then y - 1 else y in
  let era := y' / 400 in
  let yoe := y' - era * 400 in
  let mp := if 2 <? m then m - 3 else m + 9 in
  let doy := (153 * mp + 2) / 5 + d - 1 in
  let doe := yoe * 365 + yoe / 4 - yoe / 100 + doy in
  era * 146097 + doe - 719468.

Definition bad_date (s : string) : exn :=
  mkExn DateParseError ("Unknown datetime string format: " ++ s).

Definition iso_time (s : string) : outcome timestamp :=
  if String.eqb s "NaT" then Ok None else
  match list_ascii_of_string s with
  | [y1; y2; y3; y4; s1; m1; m2; s2; d1; d2; s3; h1; h2; s4; n1; n2; s5; c1; c2] =>
      match num2 y1 y2, num2 y3 y4, num2 m1 m2, num2 d1 d2,
            num2 h1 h2, num2 n1 n2, num2 c1 c2 with
      | Some yh, Some yl, Some mo, Some dd, Some hh, Some mi, Some ss =>
          let y := 100 * yh + yl in
          if Ascii.eqb s1 "-" && Ascii.eqb s2 "-" && Ascii.eqb s3 " "
             && Ascii.eqb s4 ":" && Ascii.eqb s5 ":"
             && (1 <=? mo) && (mo <=? 12)
             && (1 <=? dd) && (dd <=? days_in_month y mo)
             && (hh <? 24) && (mi <? 60) && (ss <? 60)
          then Ok (Some ((((days_from_civil y mo dd * 24 + hh) * 60 + mi) * 60 + ss)
                         * 1000000000))
          else Raise (bad_date s)
      | _, _, _, _, _, _, _ => Raise (bad_date s)
      end
  | _ => Raise (bad_date s)
  end.

(** The same parser on a column whose cells all have that format: the
    column does not change what becomes of a cell. *)
Definition iso_column (col : list cell) (s : string) : outcome timestamp :=
  iso_time s.

(** The float64 nearest to an integer, ties to even, as an integer. *)
Definition round53 (z : Z) : Z :=
  let a := Z.abs z in
  let bits := Z.log2 a + 1 in
  if bits <=? 53 then z
  else
    let s := bits - 53 in
    let q := Z.shiftr a s in
    let r := a - Z.shiftl q s in
    let half := Z.shiftl 1 (s - 1) in
    let q' := if (half <? r) || ((r =? half) && Z.odd q) then q + 1 else q in
    Z.sgn z * Z.shiftl q' s.

Definition is_null (v : json) : bool :=
  match v with JNull => true | _ => false end.

Definition is_number (v : json) : bool :=
  match v with JNum _ _ => true | _ => false end.

Definition is_float (v : json) : bool :=
  match v with JNum _ e => negb (e =? 0) | _ => false end.

(** An int that does not fit int64. *)
Definition beyond_int64 (v : json) : bool :=
  match v with
  | JNum z 0 => (z <? - 9223372036854775808) || (9223372036854775807 <? z)
  | _ => false
  end.

(** The conversion numpy settles on for a column of numbers of the int64
    range, with or without None: float64 as soon as the column holds a float
    or a None beside a number, the values as they are otherwise.  A column
    that holds anything else (a string, a bool, a list, a dict, an int
    beyond int64) is taken to stay a column of objects. *)
Definition numpy_column (col : list json) : outcome (json -> value) :=
  if forallb (fun v => is_null v || is_number v) col
     && negb (existsb beyond_int64 col)
     && existsb is_number col
     && existsb (fun v => is_null v || is_float v) col
  then Ok (fun v => match v with
                    | JNull => NaN
                    | JNum z 0 => Float64 (round53 z) 0
                    | _ => Kept v
                    end)
  else Ok Kept.

(** The size check of [px.scatter_mapbox] on the wind column: a negative
    number or NaN is refused. *)
Definition bad_size (v : value) : bool :=
  match v with
  | NaN => true
  | Float64 m _ => m <? 0
  | Kept (JNum m _) => m <? 0
  | Kept _ => false
  end.

Definition size_error (t : list frame_row) : option exn :=
  if existsb (fun r => bad_size (fWind r)) t
  then Some (mkExn ValueError "Invalid element(s) received for the 'size' property")
  else None.

(** ** Orders and predicates on rows *)

(** Strictly before, in the order of the keys. *)
Definition name_lt {O : key_order} (a b : string) : Prop := key_compare a b = Lt.

(** Newest first: the order of the frame after the sort. *)
Definition date_ge (a b : hist_row) : Prop := date_geb (Date a) (Date b) = true.

(** No NaN in the six columns that come from the archive unchanged. *)
Definition valid (r : hist_row) : bool :=
  notna (Name r) && notna (Year r) && notna (Wind r) &&
  notna (Pressure r) && notna (Latitude r) && notna (Longitude r).

(** The order of the output rows: by name, strictly ascending. *)
Definition row_name_lt {O : key_order} (a b : hist_row) : Prop :=
  match Name a, Name b with
  | Some x, Some y => name_lt x y
  | _, _ => False
  end.

(** The columns line 44 asks for. *)
Definition required_columns : list string :=
  ["NAME"; "SEASON"; "ISO_TIME"; "WMO_WIND"; "WMO_PRES"; "LAT"; "LON"].

(** The keys lines 25-29 read in each entry of the storm list. *)
Definition live_fields : list string := ["name"; "wind"; "pressure"; "lat"; "lon"].

(** An entry of the storm list that is an object with the five keys. *)
Definition complete_entry (e : json) : bool :=
  match e with
  | JObj kv => forallb (fun k => notna (assoc k kv)) live_fields
  | _ => false
  end.

(** ** Failures of a request *)

(** The live request fails before any storm is read: no reply, a status that
    [raise_for_status] rejects (4xx or 5xx), or a body that is not JSON. *)
Definition request_failure (r : live_reply) : bool :=
  match r with
  | Unreachable _ => true
  | Reply status body =>
      ((400 <=? status) && (status <? 600)) || negb (notna body)
  end.

(** A transport failure or an error status on the live feed. *)
Definition live_failure (r : live_reply) : bool :=
  match r with
  | Unreachable _ => true
  | Reply status _ => (400 <=? status) && (status <? 600)
  end.

(** A transport failure or a status outside 2xx on the historical feed. *)
Definition csv_failure (r : csv_reply) : bool :=
  match r with
  | Unreachable _ => true
  | Reply status _ => negb ((200 <=? status) && (status <? 300))
  end.

(** A dict of [active_storms] holds the five fields of a feed entry,
    unchanged. *)
Definition renamed (entry : json) (o : live_row) : Prop :=
  exists fields,
    entry = JObj fields /\
    assoc "name" fields = Some (lName o) /\
    assoc "wind" fields = Some (lWind o) /\
    assoc "pressure" fields = Some (lPressure o) /\
    assoc "lat" fields = Some (lLatitude o) /\
    assoc "lon" fields = Some (lLongitude o).

(** A row of the live frame holds the five values of a dict, each as its
    column was converted. *)
Definition converted (n w p la lo : json -> value) (o : live_row) (f : frame_row) : Prop :=
  fName f = n (lName o) /\
  fWind f = w (lWind o) /\
  fPressure f = p (lPressure o) /\
  fLatitude f = la (lLatitude o) /\
  fLongitude f = lo (lLongitude o).


(** ** Sample feeds

    Concrete replies, used to run the model. *)

(** The header of the archive, as far as the script reads it. *)
Definition archive_header : list string :=
  ["SID"; "SEASON"; "NAME"; "ISO_TIME"; "WMO_WIND"; "WMO_PRES"; "LAT"; "LON"].

Definition observation (season name time wind : string) : list cell :=
  [Some "2021001N00000"; Some season; Some name; Some time; Some wind;
   Some "1000"; Some "10.5"; Some "-60.1"].

(** Three storms: ANA is seen twice, and last seen between BILL (the oldest)
    and CLAUDETTE (the newest). *)
Definition three_storms : csv_reply :=
  Reply 200 (Some (mkDF archive_header
    [ observation "2021" "ANA" "2021-05-20 00:00:00" "35";
      observation "2021" "CLAUDETTE" "2021-06-19 06:00:00" "40";
      observation "2021" "BILL" "2021-05-14 18:00:00" "50";
      observation "2021" "ANA" "2021-05-22 12:00:00" "40" ])).

Definition ana_latest : hist_row :=
  mkHist (Some "ANA") (Some "2021") (Some 1621684800000000000) (Some "40")
         (Some "1000") (Some "10.5") (Some "-60.1").

Definition bill_latest : hist_row :=
  mkHist (Some "BILL") (Some "2021") (Some 1621015200000000000) (Some "50")
         (Some "1000") (Some "10.5") (Some "-60.1").

Definition claudette_latest : hist_row :=
  mkHist (Some "CLAUDETTE") (Some "2021") (Some 1624082400000000000) (Some "40")
         (Some "1000") (Some "10.5") (Some "-60.1").

Definition three_storms_out : list hist_row :=
  [ana_latest; bill_latest; claudette_latest].

(** An archive whose only rows lack a value: the first has no pressure, the
    second no latitude. *)
Definition incomplete_frame : DataFrame :=
  mkDF archive_header
    [ [Some "2021001N00000"; Some "2021"; Some "ANA"; Some "2021-05-20 00:00:00";
       Some "35"; None; Some "10.5"; Some "-60.1"];
      [Some "2021001N00001"; Some "2021"; Some "BILL"; Some "2021-05-14 18:00:00";
       Some "50"; Some "1000"; None; Some "-60.1"] ].

Definition incomplete_archive : csv_reply := Reply 200 (Some incomplete_frame).

(** Its seven columns. *)
Definition incomplete_selected : list raw_row :=
  [ mkRaw (Some "ANA") (Some "2021") (Some "2021-05-20 00:00:00")
          (Some "35") None (Some "10.5") (Some "-60.1");
    mkRaw (Some "BILL") (Some "2021") (Some "2021-05-14 18:00:00")
          (Some "50") (Some "1000") None (Some "-60.1") ].

(** Fifty-one storms STORM00 .. STORM50, one observation each, storm [i] seen
    on 1 January of the year 2000 + i. *)
Definition two_digits (n : nat) : string :=
  let d (k : nat) := ascii_of_nat (48 + k) in
  String (d (Nat.div n 10)) (String (d (Nat.modulo n 10)) EmptyString).

Definition yearly_storm (i : nat) : list cell :=
  observation ("20" ++ two_digits i) ("STORM" ++ two_digits i)
              ("20" ++ two_digits i ++ "-01-01 00:00:00") "35".

Definition fifty_one_storms : csv_reply :=
  Reply 200 (Some (mkDF archive_header (map yearly_storm (seq 0 51)))).

(** The frame of [three_storms], and the same lines in another order. *)
Definition three_storms_rows : list (list cell) :=
  [ observation "2021" "ANA" "2021-05-20 00:00:00" "35";
    observation "2021" "CLAUDETTE" "2021-06-19 06:00:00" "40";
    observation "2021" "BILL" "2021-05-14 18:00:00" "50";
    observation "2021" "ANA" "2021-05-22 12:00:00" "40" ].

Definition three_storms_frame : DataFrame := mkDF archive_header three_storms_rows.

Definition three_storms_shuffled : list (list cell) :=
  [ observation "2021" "CLAUDETTE" "2021-06-19 06:00:00" "40";
    observation "2021" "ANA" "2021-05-20 00:00:00" "35";
    observation "2021" "BILL" "2021-05-14 18:00:00" "50";
    observation "2021" "ANA" "2021-05-22 12:00:00" "40" ].

(** An archive without the LAT column. *)
Definition no_lat_frame : DataFrame :=
  mkDF ["SID"; "SEASON"; "NAME"; "ISO_TIME"; "WMO_WIND"; "WMO_PRES"; "LON"]
       [ [Some "2021001N00000"; Some "2021"; Some "ANA"; Some "2021-05-20 00:00:00";
          Some "35"; Some "1000"; Some "-60.1"] ].

(** An archive with one good row and one complete row whose timestamp is
    not a date. *)
Definition garbled_frame : DataFrame :=
  mkDF archive_header
    [ observation "2021" "ANA" "2021-05-20 00:00:00" "35";
      observation "2021" "BILL" "yesterday" "50" ].

Definition garbled_selected : list raw_row :=
  [ mkRaw (Some "ANA") (Some "2021") (Some "2021-05-20 00:00:00")
          (Some "35") (Some "1000") (Some "10.5") (Some "-60.1");
    mkRaw (Some "BILL") (Some "2021") (Some "yesterday")
          (Some "50") (Some "1000") (Some "10.5") (Some "-60.1") ].

(** An archive with one good row and one row that has the timestamp text
    "yesterday" but no wind value. *)
Definition patchy_frame : DataFrame :=
  mkDF archive_header
    [ observation "2021" "ANA" "2021-05-20 00:00:00" "35";
      [Some "2021001N00001"; Some "2021"; Some "BILL"; Some "yesterday";
       None; Some "1000"; Some "10.5"; Some "-60.1"] ].

Definition patchy_selected : list raw_row :=
  [ mkRaw (Some "ANA") (Some "2021") (Some "2021-05-20 00:00:00")
          (Some "35") (Some "1000") (Some "10.5") (Some "-60.1");
    mkRaw (Some "BILL") (Some "2021") (Some "yesterday")
          None (Some "1000") (Some "10.5") (Some "-60.1") ].

Definition patchy_ana : hist_row :=
  mkHist (Some "ANA") (Some "2021") (Some 1621468800000000000) (Some "35")
         (Some "1000") (Some "10.5") (Some "-60.1").

(** A parser that, unlike [iso_column], takes "yesterday" for NaT. *)
Definition lenient_column (col : list cell) (s : string) : outcome timestamp :=
  if String.eqb s "yesterday" then Ok None else iso_time s.

(** An archive whose storms carry numbers for names: the Name column is an
    integer column. *)
Definition numbered_storms : csv_reply :=
  Reply 200 (Some (mkDF archive_header
    [ observation "2021" "10" "2021-05-20 00:00:00" "35";
      observation "2021" "9" "2021-06-19 06:00:00" "40" ])).

Definition storm_9 : hist_row :=
  mkHist (Some "9") (Some "2021") (Some 1624082400000000000) (Some "40")
         (Some "1000") (Some "10.5") (Some "-60.1").

Definition storm_10 : hist_row :=
  mkHist (Some "10") (Some "2021") (Some 1621468800000000000) (Some "35")
         (Some "1000") (Some "10.5") (Some "-60.1").

(** Live feeds. *)
Definition no_storms : json := JObj [("storms", JArr [])].

(** The entry of [one_storm]. *)
Definition ana_entry : json :=
  JObj [("name", JStr "Ana"); ("wind", JNum 35 0); ("pressure", JNum 1004 0);
        ("lat", JNum 345 (-1)); ("lon", JNum (-622) (-1))].

Definition one_storm : json :=
  JObj [("storms",
         JArr [JObj [("name", JStr "Ana"); ("wind", JNum 35 0);
                     ("pressure", JNum 1004 0);
                     ("lat", JNum 345 (-1)); ("lon", JNum (-622) (-1))]])].

(** The frame built from [one_storm]: no column needs a conversion. *)
Definition one_storm_frame : list frame_row :=
  [mkFrame (Kept (JStr "Ana")) (Kept (JNum 35 0)) (Kept (JNum 1004 0))
           (Kept (JNum 345 (-1))) (Kept (JNum (-622) (-1)))].

(** An entry without its wind field. *)
Definition storm_without_wind : json :=
  JObj [("storms", JArr [JObj [("name", JStr "Ana")]])].

(** Two storms: the wind of the first is the int 2^53 + 1, the wind of the
    second the float 0.5; the pressure of the second is null. *)
Definition mixed_winds_entries : list json :=
  [JObj [("name", JStr "Ana"); ("wind", JNum 9007199254740993 0);
         ("pressure", JNum 1004 0);
         ("lat", JNum 345 (-1)); ("lon", JNum (-622) (-1))];
   JObj [("name", JStr "Bill"); ("wind", JNum 5 (-1));
         ("pressure", JNull);
         ("lat", JNum 120 (-1)); ("lon", JNum (-400) (-1))]].

Definition mixed_winds : json := JObj [("storms", JArr mixed_winds_entries)].


(** One storm with a negative wind. *)
Definition negative_wind : json :=
  JObj [("storms",
         JArr [JObj [("name", JStr "Ana"); ("wind", JNum (-5) 0);
                     ("pressure", JNum 1004 0);
                     ("lat", JNum 345 (-1)); ("lon", JNum (-622) (-1))]])].

Definition negative_wind_frame : list frame_row :=
  [mkFrame (Kept (JStr "Ana")) (Kept (JNum (-5) 0)) (Kept (JNum 1004 0))
           (Kept (JNum 345 (-1))) (Kept (JNum (-622) (-1)))].

(** * Properties *)

(** ** The error monad *)

Lemma bind_Ok {A B} (c : outcome A) (k : A -> outcome B) (b : B) :
  bind c k = Ok b -> exists a, c = Ok a /\ k a = Ok b.
Proof.
  destruct c as [a|e]; simpl; intro H; [eauto | discriminate].
Qed.

Lemma mapM_Ok {A B} (f : A -> outcome B) (l : list A) (l' : list B) :
  mapM f l = Ok l' -> Forall2 (fun a b => f a = Ok b) l l'.
Proof.
  revert l'; induction l as [|a l IH]; simpl; intros l' H.
  - injection H as <-. constructor.
  - apply bind_Ok in H as (b & Hb & H).
    apply bind_Ok in H as (bs & Hbs & H).
    injection H as <-. constructor; auto.
Qed.

Lemma Forall2_In_r {A B} (P : A -> B -> Prop) l l' b :
  Forall2 P l l' -> In b l' -> exists a, In a l /\ P a b.
Proof.
  induction 1 as [|x y l l' Hxy _ IH]; [contradiction|].
  intros [<-|Hb].
  - exists x. split; [left; reflexivity | assumption].
  - destruct (IH Hb) as (a & Ha & Hp). exists a. split; [right|]; assumption.
Qed.

Ltac bind_inv H :=
  repeat match type of H with
         | bind _ _ = Ok _ =>
             let x := fresh "x" in
             let E := fresh "E" in
             apply bind_Ok in H as (x & E & H)
         end.

(** ** The sort gives a permutation in descending date order *)

Lemma date_geb_refl t : date_geb t t = true.
Proof. destruct t; simpl; [apply Z.leb_refl | reflexivity]. Qed.

Lemma date_geb_trans a b c :
  date_geb a b = true -> date_geb b c = true -> date_geb a c = true.
Proof.
  destruct a, b, c; simpl; try congruence; rewrite !Z.leb_le; lia.
Qed.

Lemma date_geb_total a b : date_geb a b = false -> date_geb b a = true.
Proof.
  destruct a, b; simpl; try congruence. rewrite Z.leb_gt, Z.leb_le. lia.
Qed.

Lemma insert_desc_perm r l : Permutation (insert_desc r l) (r :: l).
Proof.
  induction l as [|y l IH]; simpl.
  - reflexivity.
  - destruct (date_geb (Date r) (Date y)).
    + reflexivity.
    + rewrite IH. apply perm_swap.
Qed.

Lemma sort_values_perm l : Permutation (sort_values_desc l) l.
Proof.
  induction l as [|r l IH]; simpl.
  - reflexivity.
  - rewrite insert_desc_perm. constructor. exact IH.
Qed.

Lemma insert_desc_sorted r l :
  StronglySorted date_ge l -> StronglySorted date_ge (insert_desc r l).
Proof.
  induction 1 as [|y l Hs IH Hall]; simpl.
  - repeat constructor.
  - destruct (date_geb (Date r) (Date y)) eqn:E.
    + constructor; [constructor; assumption|].
      constructor; [exact E|].
      eapply Forall_impl; [|exact Hall].
      intros z Hz. eapply date_geb_trans; [exact E | exact Hz].
    + constructor; [exact IH|].
      apply Forall_forall. intros z Hz.
      apply (Permutation_in _ (insert_desc_perm r l)) in Hz as [<-|Hz].
      * apply date_geb_total; assumption.
      * rewrite Forall_forall in Hall. auto.
Qed.

Lemma sort_values_sorted l : StronglySorted date_ge (sort_values_desc l).
Proof.
  induction l as [|r l IH]; simpl.
  - constructor.
  - apply insert_desc_sorted; assumption.
Qed.

Lemma filter_sorted {A} (R : A -> A -> Prop) (f : A -> bool) l :
  StronglySorted R l -> StronglySorted R (filter f l).
Proof.
  induction 1 as [|a l Hs IH Hall]; simpl.
  - constructor.
  - destruct (f a); [|exact IH].
    constructor; [exact IH|].
    apply Forall_forall. intros x Hx. apply filter_In in Hx as [Hx _].
    rewrite Forall_forall in Hall. auto.
Qed.

Lemma head_In {A} n (l : list A) x : In x (head n l) -> In x l.
Proof.
  unfold head. revert l; induction n as [|n IH]; intros [|a l]; simpl; try tauto.
  intros [->|H]; auto.
Qed.

Lemma head_sorted {A} (R : A -> A -> Prop) n l :
  StronglySorted R l -> StronglySorted R (head n l).
Proof.
  unfold head. intro H; revert n; induction H as [|a l Hs IH Hall]; intros [|n]; simpl;
    try constructor; auto.
  apply Forall_forall. intros x Hx. apply (head_In n l) in Hx.
  rewrite Forall_forall in Hall. auto.
Qed.

Lemma map_sorted {A B} (R : A -> A -> Prop) (R' : B -> B -> Prop) (f : A -> B) l :
  (forall a b, R a b -> R' (f a) (f b)) ->
  StronglySorted R l -> StronglySorted R' (map f l).
Proof.
  intros Hf. induction 1 as [|a l Hs IH Hall]; simpl; constructor; auto.
  apply Forall_forall. intros y Hy. apply in_map_iff in Hy as (b & <- & Hb).
  rewrite Forall_forall in Hall. auto.
Qed.

Lemma first_valid_none {A B} (f : A -> option B) (g : list A) :
  Forall (fun y => f y = None) g -> first_valid (map f g) = None.
Proof.
  induction 1 as [|y g Hy _ IH]; simpl; [reflexivity|].
  rewrite Hy. exact IH.
Qed.

(** ** [first()] on sorted groups of rows without missing cells *)

Lemma first_head k x g :
  valid x = true -> Name x = Some k -> StronglySorted date_ge (x :: g) ->
  first k (x :: g) = x.
Proof.
  intros Hv Hk Hs. apply StronglySorted_inv in Hs as [_ Hall].
  destruct x as [n y d w p la lo]. unfold valid in Hv. simpl in *. subst n.
  destruct y, w, p, la, lo; try discriminate. unfold first. simpl.
  destruct d as [t|]; [reflexivity|].
  assert (E : first_valid (map Date g) = None).
  { apply first_valid_none. eapply Forall_impl; [|exact Hall].
    unfold date_ge. simpl. intros z Hz. destruct (Date z); [discriminate|reflexivity]. }
  rewrite E. reflexivity.
Qed.

Lemma in_group_name k r : in_group k r = true <-> Name r = Some k.
Proof.
  unfold in_group. destruct (Name r) as [n|].
  - rewrite String.eqb_eq. split; congruence.
  - split; discriminate.
Qed.

Section RollupFacts.

Context {O : key_order}.

(** ** The order on names *)

Lemma name_lt_trans a b c : name_lt a b -> name_lt b c -> name_lt a c.
Proof. unfold name_lt. apply key_compare_trans. Qed.

Lemma name_lt_irrefl a : ~ name_lt a a.
Proof.
  unfold name_lt. intro H. pose proof (key_compare_antisym a a) as E.
  rewrite H in E. discriminate E.
Qed.

Lemma compare_Gt_lt a b : key_compare a b = Gt -> name_lt b a.
Proof.
  unfold name_lt. intro H. rewrite key_compare_antisym, H. reflexivity.
Qed.

(** ** The group keys are the names, sorted, each once *)

Lemma insert_key_In k ks x : In x (insert_key k ks) <-> x = k \/ In x ks.
Proof.
  induction ks as [|k' ks IH]; simpl.
  - intuition.
  - destruct (key_compare k k') eqn:E; simpl.
    + apply key_compare_eq in E. subst. intuition.
    + intuition.
    + rewrite IH. intuition.
Qed.

Lemma insert_key_sorted k ks :
  StronglySorted name_lt ks -> StronglySorted name_lt (insert_key k ks).
Proof.
  induction 1 as [|k' ks Hs IH Hall]; simpl.
  - repeat constructor.
  - destruct (key_compare k k') eqn:E.
    + constructor; assumption.
    + constructor; [constructor; assumption|].
      constructor; [exact E|].
      eapply Forall_impl; [|exact Hall].
      intros c Hc. eapply name_lt_trans; [exact E | exact Hc].
    + constructor; [exact IH|].
      apply Forall_forall. intros x Hx. apply insert_key_In in Hx as [->|Hx].
      * apply compare_Gt_lt; assumption.
      * rewrite Forall_forall in Hall. auto.
Qed.

Lemma group_keys_In l k :
  In k (group_keys l) <-> exists r, In r l /\ Name r = Some k.
Proof.
  induction l as [|r l IH]; simpl.
  - split; [tauto | intros (r & [] & _)].
  - destruct (Name r) as [n|] eqn:E.
    + rewrite insert_key_In, IH. split.
      * intros [->|(r' & Hin & Hn)]; eauto.
      * intros (r' & [<-|Hin] & Hn); [left; congruence | right; eauto].
    + rewrite IH. split.
      * intros (r' & Hin & Hn); eauto.
      * intros (r' & [<-|Hin] & Hn); [congruence | eauto].
Qed.

Lemma group_keys_sorted l : StronglySorted name_lt (group_keys l).
Proof.
  induction l as [|r l IH]; simpl.
  - constructor.
  - destruct (Name r); [apply insert_key_sorted|]; assumption.
Qed.

Lemma groupby_first_In l r :
  In r (groupby_first l) ->
  exists k, In k (group_keys l) /\ r = first k (group k l).
Proof.
  unfold groupby_first. rewrite in_map_iff. intros (k & <- & Hk). eauto.
Qed.

(** On a frame sorted by date, without missing cells, each row of
    [groupby("Name").first()] is a row of the frame, and no row of the frame
    with that name has a later date. *)
Lemma groupby_first_spec l r :
  Forall (fun x => valid x = true) l -> StronglySorted date_ge l ->
  In r (groupby_first l) ->
  In r l /\ forall y, In y l -> Name y = Name r -> date_ge r y.
Proof.
  intros Hv Hs Hr. apply groupby_first_In in Hr as (k & Hk & ->).
  apply group_keys_In in Hk as (r0 & Hr0 & Hn0).
  assert (Hg0 : In r0 (group k l))
    by (apply filter_In; split; [assumption | apply in_group_name; assumption]).
  pose proof (filter_sorted date_ge (in_group k) l Hs) as Hgs.
  fold (group k l) in Hgs.
  assert (Hsub : forall y, In y (group k l) -> In y l /\ Name y = Some k).
  { intros y Hy. apply filter_In in Hy as [Hy Hg]. apply in_group_name in Hg. auto. }
  destruct (group k l) as [|x g] eqn:Eg; [contradiction|].
  destruct (Hsub x (or_introl eq_refl)) as [Hxl Hxk].
  rewrite Forall_forall in Hv.
  rewrite (first_head k x g (Hv x Hxl) Hxk Hgs).
  split; [exact Hxl|].
  intros y Hy Hyn.
  assert (Hyg : In y (x :: g)).
  { rewrite <- Eg. apply filter_In. split; [assumption|].
    apply in_group_name. congruence. }
  destruct Hyg as [<-|Hyg].
  - apply date_geb_refl.
  - apply StronglySorted_inv in Hgs as [_ Hall].
    rewrite Forall_forall in Hall. auto.
Qed.

Lemma groupby_first_sorted l : StronglySorted row_name_lt (groupby_first l).
Proof.
  unfold groupby_first.
  apply (map_sorted name_lt); [|apply group_keys_sorted].
  intros a b Hab. exact Hab.
Qed.

Lemma row_name_lt_NoDup l :
  StronglySorted row_name_lt l -> NoDup (map Name l).
Proof.
  induction 1 as [|a l Hs IH Hall]; simpl; constructor; auto.
  intro Hin. apply in_map_iff in Hin as (y & Hy & Hyl).
  rewrite Forall_forall in Hall. specialize (Hall y Hyl).
  unfold row_name_lt in Hall. rewrite Hy in Hall.
  destruct (Name a); [exact (name_lt_irrefl _ Hall) | exact Hall].
Qed.

(** Lines 53-54 together. *)
Lemma latest_spec l r :
  Forall (fun x => valid x = true) l -> In r (latest l) ->
  In r l /\ forall y, In y l -> Name y = Name r -> date_ge r y.
Proof.
  intros Hv Hr. unfold latest in Hr. apply head_In in Hr.
  pose proof (sort_values_perm l) as Hp.
  apply groupby_first_spec in Hr as [Hin Hmax].
  - split.
    + eapply Permutation_in; eassumption.
    + intros y Hy. apply Hmax. eapply Permutation_in; [symmetry|]; eassumption.
  - rewrite Forall_forall in *. intros x Hx. apply Hv.
    eapply Permutation_in; eassumption.
  - apply sort_values_sorted.
Qed.

Lemma latest_sorted l : StronglySorted row_name_lt (latest l).
Proof. unfold latest. apply head_sorted, groupby_first_sorted. Qed.

Lemma latest_length l : (List.length (latest l) <= 50)%nat.
Proof. unfold latest, head. apply firstn_le_length. Qed.

End RollupFacts.

(** ** What reaches the sort *)

Section HistoricalFacts.

Context {O : key_order}.
Variable to_datetime : list cell -> string -> outcome timestamp.

Lemma convert_Ok col raw h :
  convert to_datetime col raw = Ok h ->
  Name h = NAME raw /\ Year h = SEASON raw /\ Wind h = WMO_WIND raw /\
  Pressure h = WMO_PRES raw /\ Latitude h = LAT raw /\ Longitude h = LON raw.
Proof.
  unfold convert. intro H. bind_inv H. injection H as <-. simpl. tauto.
Qed.

Lemma convert_valid col raw h :
  complete raw = true -> convert to_datetime col raw = Ok h -> valid h = true.
Proof.
  intros Hc H. apply convert_Ok in H as (E1 & E2 & E3 & E4 & E5 & E6).
  unfold complete in Hc. unfold valid. rewrite E1, E2, E3, E4, E5, E6.
  repeat (apply andb_prop in Hc as [Hc ?]).
  repeat (apply andb_true_intro; split); assumption.
Qed.

(** Each surviving row is the conversion of a complete row of the frame. *)
Lemma post_filter_Ok r l :
  post_filter to_datetime r = Ok l ->
  exists df selected,
    read_csv r = Ok df /\ select_columns df = Ok selected /\
    Forall2 (fun raw h =>
               convert to_datetime (map ISO_TIME (dropna selected)) raw = Ok h)
            (dropna selected) l.
Proof.
  unfold post_filter, convert_dates. intro H. bind_inv H.
  exists x, x0. repeat split; try assumption. apply mapM_Ok; assumption.
Qed.

Lemma post_filter_source r l h :
  post_filter to_datetime r = Ok l -> In h l ->
  exists df selected raw,
    read_csv r = Ok df /\ select_columns df = Ok selected /\
    In raw selected /\ complete raw = true /\
    convert to_datetime (map ISO_TIME (dropna selected)) raw = Ok h.
Proof.
  intros H Hh. apply post_filter_Ok in H as (df & sel & Hdf & Hsel & HF).
  exists df, sel.
  destruct (Forall2_In_r _ _ _ h HF Hh) as (raw & Hin & Hc).
  apply filter_In in Hin as [Hin Hcomp].
  exists raw. auto.
Qed.

Lemma post_filter_valid r l :
  post_filter to_datetime r = Ok l -> Forall (fun x => valid x = true) l.
Proof.
  intro H. apply Forall_forall. intros h Hh.
  destruct (post_filter_source r l h H Hh) as (df & sel & raw & _ & _ & _ & Hc & Hconv).
  eapply convert_valid; eassumption.
Qed.

(** A fetch that returns a table ran lines 41-54 to the end. *)
Lemma fetch_last_50_present r log out :
  fetch_last_50_cyclones to_datetime r = (log, Ok (Some out)) ->
  exists l, post_filter to_datetime r = Ok l /\ out = latest l /\ log = [].
Proof.
  unfold fetch_last_50_cyclones, last_50_body. intro H.
  destruct (post_filter to_datetime r) as [l|e]; simpl in H.
  - injection H as <- <-. eauto.
  - discriminate.
Qed.

End HistoricalFacts.

(** ** The historical table *)

Section HistoricalClaims.

Context {O : key_order}.
Variable to_datetime : list cell -> string -> outcome timestamp.

(** C2.  When the historical fetch returns a table, the date of each of its
    rows is the greatest date among the rows that survive [dropna] and
    carry the same storm name: some such row has that date, and none has a
    later one (NaT counts as earlier than every date). *)
Theorem C2_date_is_latest_of_name r log out row :
  fetch_last_50_cyclones to_datetime r = (log, Ok (Some out)) ->
  In row out ->
  exists l,
    post_filter to_datetime r = Ok l /\
    (exists x, In x l /\ Name x = Name row /\ Date x = Date row) /\
    (forall y, In y l -> Name y = Name row ->
               date_geb (Date row) (Date y) = true).
Proof.
  intros Hf Hrow.
  apply fetch_last_50_present in Hf as (l & Hl & -> & _).
  exists l. split; [exact Hl|].
  destruct (latest_spec l row (post_filter_valid _ _ _ Hl) Hrow) as [Hin Hmax].
  split; [exists row; auto | exact Hmax].
Qed.

(** C3.  When the historical fetch returns a table, it has at most 50 rows
    and no two of them carry the same storm name. *)
Theorem C3_at_most_50_distinct_names r log out :
  fetch_last_50_cyclones to_datetime r = (log, Ok (Some out)) ->
  (List.length out <= 50)%nat /\ NoDup (map Name out).
Proof.
  intro Hf. apply fetch_last_50_present in Hf as (l & _ & -> & _).
  split; [apply latest_length | apply row_name_lt_NoDup, latest_sorted].
Qed.

(** C10.  When the historical fetch returns a table, each of its rows is,
    as a whole, one of the rows that survive [dropna]: the column-wise
    [first()] never mixes cells of different rows, because no surviving row
    has a missing cell. *)
Theorem C10_output_row_is_input_row r log out row :
  fetch_last_50_cyclones to_datetime r = (log, Ok (Some out)) ->
  In row out ->
  exists l, post_filter to_datetime r = Ok l /\ In row l.
Proof.
  intros Hf Hrow.
  apply fetch_last_50_present in Hf as (l & Hl & -> & _).
  exists l. split; [exact Hl|].
  exact (proj1 (latest_spec l row (post_filter_valid _ _ _ Hl) Hrow)).
Qed.

End HistoricalClaims.

Lemma three_storms_fetch :
  fetch_last_50_cyclones iso_column three_storms = ([], Ok (Some three_storms_out)).
Proof. vm_compute. reflexivity. Qed.

Lemma C2_date_is_latest_of_name_witness :
  fetch_last_50_cyclones iso_column three_storms = ([], Ok (Some three_storms_out)) /\
  In ana_latest three_storms_out /\
  exists l,
    post_filter iso_column three_storms = Ok l /\
    (exists x, In x l /\ Name x = Name ana_latest /\ Date x = Date ana_latest) /\
    (forall y, In y l -> Name y = Name ana_latest ->
               date_geb (Date ana_latest) (Date y) = true).
Proof.
  split; [vm_compute; reflexivity|].
  split; [simpl; auto|].
  apply (C2_date_is_latest_of_name iso_column three_storms [] three_storms_out ana_latest).
  - vm_compute; reflexivity.
  - simpl; auto.
Defined.

Lemma C3_at_most_50_distinct_names_witness :
  fetch_last_50_cyclones iso_column three_storms = ([], Ok (Some three_storms_out)) /\
  (List.length three_storms_out <= 50)%nat /\ NoDup (map Name three_storms_out).
Proof.
  split; [vm_compute; reflexivity|].
  apply (C3_at_most_50_distinct_names iso_column three_storms []).
  vm_compute; reflexivity.
Defined.

Lemma C10_output_row_is_input_row_witness :
  fetch_last_50_cyclones iso_column three_storms = ([], Ok (Some three_storms_out)) /\
  In ana_latest three_storms_out /\
  exists l, post_filter iso_column three_storms = Ok l /\ In ana_latest l.
Proof.
  split; [vm_compute; reflexivity|].
  split; [simpl; auto|].
  apply (C10_output_row_is_input_row iso_column three_storms [] three_storms_out).
  - vm_compute; reflexivity.
  - simpl; auto.
Defined.

(** The rows of a table run from newest to oldest ([date_ge]), or from oldest
    to newest. *)
Lemma three_storms_not_descending : ~ StronglySorted date_ge three_storms_out.
Proof.
  intro H. apply StronglySorted_inv in H as [H _].
  apply StronglySorted_inv in H as [_ H].
  apply Forall_inv in H. discriminate H.
Qed.

Lemma three_storms_not_ascending :
  ~ StronglySorted (fun a b => date_ge b a) three_storms_out.
Proof.
  intro H. apply StronglySorted_inv in H as [_ H].
  apply Forall_inv in H. discriminate H.
Qed.

(** C9.  When the historical fetch returns a table with at least one row, its
    rows are in strictly ascending order of storm name, in the order of the
    keys of the Name column (code point order for a column of strings,
    numeric order for a numeric column); and the rows need not be in date
    order, neither newest first nor oldest first. *)
Theorem C9_rows_in_name_order :
  (forall (O : key_order) to_datetime r log out,
      fetch_last_50_cyclones to_datetime r = (log, Ok (Some out)) ->
      out <> [] ->
      StronglySorted row_name_lt out) /\
  ~ (forall (O : key_order) to_datetime r log out,
        fetch_last_50_cyclones to_datetime r = (log, Ok (Some out)) ->
        out <> [] ->
        StronglySorted date_ge out) /\
  ~ (forall (O : key_order) to_datetime r log out,
        fetch_last_50_cyclones to_datetime r = (log, Ok (Some out)) ->
        out <> [] ->
        StronglySorted (fun a b => date_ge b a) out).
Proof.
  split; [|split].
  - intros O td r log out Hf _.
    apply fetch_last_50_present in Hf as (l & _ & -> & _). apply latest_sorted.
  - intro H. apply three_storms_not_descending.
    apply (H code_point_order iso_column three_storms []);
      [exact three_storms_fetch | discriminate].
  - intro H. apply three_storms_not_ascending.
    apply (H code_point_order iso_column three_storms []);
      [exact three_storms_fetch | discriminate].
Qed.

(** A run on a column of strings, and a run on a column of numbers, where 9
    comes before 10. *)
Lemma C9_rows_in_name_order_witness :
  (fetch_last_50_cyclones (O := code_point_order) iso_column three_storms
     = ([], Ok (Some three_storms_out)) /\
   three_storms_out <> [] /\
   StronglySorted (row_name_lt (O := code_point_order)) three_storms_out) /\
  (fetch_last_50_cyclones (O := shortlex_order) iso_column numbered_storms
     = ([], Ok (Some [storm_9; storm_10])) /\
   [storm_9; storm_10] <> [] /\
   StronglySorted (row_name_lt (O := shortlex_order)) [storm_9; storm_10]).
Proof.
  split.
  - split; [vm_compute; reflexivity|].
    split; [discriminate|].
    apply (proj1 C9_rows_in_name_order code_point_order iso_column three_storms []).
    + vm_compute; reflexivity.
    + discriminate.
  - split; [vm_compute; reflexivity|].
    split; [discriminate|].
    apply (proj1 C9_rows_in_name_order shortlex_order iso_column numbered_storms []).
    + vm_compute; reflexivity.
    + discriminate.
Defined.

(** C1.  The fetch on fifty-one storms, one per year from 2000 to 2050:
    the table has fifty rows and runs from STORM00 (2000) to STORM49 (2049),
    oldest first.  It is not in descending date order, it holds the oldest
    storm, and the most recent storm, STORM50, is not in it. *)
Theorem C1_first_50_names_not_latest_50 :
  exists out,
    fetch_last_50_cyclones iso_column fifty_one_storms = ([], Ok (Some out)) /\
    List.length out = 50%nat /\
    ~ StronglySorted date_ge out /\
    In (Some "STORM00") (map Name out) /\
    ~ In (Some "STORM50") (map Name out).
Proof.
  eexists. split; [vm_compute; reflexivity|].
  split; [reflexivity|].
  split; [|split].
  - intro H. apply StronglySorted_inv in H as [_ H].
    apply Forall_inv in H. discriminate H.
  - left. reflexivity.
  - intro H. simpl in H.
    repeat (destruct H as [H|H]; [discriminate H|]). exact H.
Qed.

(** ** The live table *)

Lemma py_getitem_Ok d key v :
  py_getitem d key = Ok v -> exists fields, d = JObj fields /\ assoc key fields = Some v.
Proof.
  destruct d as [|b|m ex|s|its|fs]; simpl; try discriminate.
  destruct (assoc key fs) eqn:E; [|discriminate].
  intro H. injection H as <-. eauto.
Qed.

Lemma storm_row_Ok entry o : storm_row entry = Ok o -> renamed entry o.
Proof.
  unfold storm_row. intro H.
  apply bind_Ok in H as (n & En & H).
  apply bind_Ok in H as (w & Ew & H).
  apply bind_Ok in H as (p & Ep & H).
  apply bind_Ok in H as (la & Ela & H).
  apply bind_Ok in H as (lo & Elo & H).
  injection H as <-.
  apply py_getitem_Ok in En as (f & -> & En).
  apply py_getitem_Ok in Ew as (f1 & [= <-] & Ew).
  apply py_getitem_Ok in Ep as (f2 & [= <-] & Ep).
  apply py_getitem_Ok in Ela as (f3 & [= <-] & Ela).
  apply py_getitem_Ok in Elo as (f4 & [= <-] & Elo).
  exists f. simpl. auto 10.
Qed.

(** A loop over the keys of a dict or the characters of a string yields rows
    only when there is nothing to visit. *)
Lemma mapM_storm_row_texts {A} (f : A -> string) l rows :
  mapM storm_row (map (fun a => JStr (f a)) l) = Ok rows -> rows = [].
Proof.
  destruct l as [|a l]; simpl; [congruence | discriminate].
Qed.

Lemma mapM_storm_row_chars s rows :
  mapM storm_row (chars s) = Ok rows -> rows = [].
Proof.
  destruct s; simpl; [congruence | discriminate].
Qed.

Lemma get_json_Ok r data :
  get_json r = Ok data ->
  exists status, r = Reply status (Some data) /\
                 (400 <=? status) && (status <? 600) = false.
Proof.
  destruct r as [reason|status [d|]]; simpl; try discriminate;
    destruct ((400 <=? status) && (status <? 600)) eqn:E; try discriminate.
  intro H. injection H as <-. eauto.
Qed.

Lemma mapM_nil {A B} (f : A -> outcome B) l : mapM f l = Ok [] -> l = [].
Proof.
  destruct l as [|a l]; simpl; [reflexivity|].
  destruct (f a); simpl; [|discriminate].
  destruct (mapM f l); simpl; discriminate.
Qed.

Lemma mapM_total {A B} (f : A -> outcome B) l :
  (forall a, In a l -> exists b, f a = Ok b) -> exists l', mapM f l = Ok l'.
Proof.
  induction l as [|a l IH]; simpl; intro H; [eauto|].
  destruct (H a (or_introl eq_refl)) as (b & ->).
  destruct IH as (l' & ->); [auto|]. simpl. eauto.
Qed.

Lemma mapM_Raise {A B} (f : A -> outcome B) l a e :
  In a l -> f a = Raise e -> exists e', mapM f l = Raise e'.
Proof.
  induction l as [|x l IH]; simpl; [contradiction|].
  intros [->|Hin] Hf.
  - rewrite Hf. simpl. eauto.
  - destruct (f x); simpl; [|eauto].
    destruct (IH Hin Hf) as (e' & ->). simpl. eauto.
Qed.

Lemma mapM_ext_in {A B} (f g : A -> outcome B) l :
  (forall a, In a l -> f a = g a) -> mapM f l = mapM g l.
Proof.
  induction l as [|a l IH]; simpl; intro H; [reflexivity|].
  rewrite (H a (or_introl eq_refl)), IH; auto.
Qed.

Lemma Forall2_map_r {A B} (P : A -> B -> Prop) (f : A -> B) l :
  (forall a, P a (f a)) -> Forall2 P l (map f l).
Proof.
  intro H. induction l as [|a l IH]; simpl; constructor; auto.
Qed.

Lemma complete_entry_row e :
  complete_entry e = true -> exists o, storm_row e = Ok o.
Proof.
  destruct e as [|b|m ex|s|its|fs]; try discriminate.
  unfold complete_entry, live_fields, storm_row.
  simpl. rewrite !andb_true_iff.
  intros (H1 & H2 & H3 & H4 & H5 & _).
  destruct (assoc "name" fs); [|discriminate].
  destruct (assoc "wind" fs); [|discriminate].
  destruct (assoc "pressure" fs); [|discriminate].
  destruct (assoc "lat" fs); [|discriminate].
  destruct (assoc "lon" fs); [|discriminate].
  simpl. eauto.
Qed.

Lemma incomplete_entry_raises e :
  complete_entry e = false ->
  exists x, storm_row e = Raise x /\ (exn_cls x = KeyError \/ exn_cls x = TypeError).
Proof.
  destruct e as [|b|m ex|s|its|fs];
    try (intros _; eexists; split; [reflexivity | right; reflexivity]).
  unfold complete_entry, live_fields, storm_row. simpl.
  destruct (assoc "name" fs); simpl;
    [|intros _; eexists; split; [reflexivity | left; reflexivity]].
  destruct (assoc "wind" fs); simpl;
    [|intros _; eexists; split; [reflexivity | left; reflexivity]].
  destruct (assoc "pressure" fs); simpl;
    [|intros _; eexists; split; [reflexivity | left; reflexivity]].
  destruct (assoc "lat" fs); simpl;
    [|intros _; eexists; split; [reflexivity | left; reflexivity]].
  destruct (assoc "lon" fs); simpl;
    [discriminate | intros _; eexists; split; [reflexivity | left; reflexivity]].
Qed.

Lemma mapM_storm_row_raises items :
  forallb complete_entry items = false ->
  exists x, mapM storm_row items = Raise x /\
            (exn_cls x = KeyError \/ exn_cls x = TypeError).
Proof.
  induction items as [|e items IH]; simpl; [discriminate|].
  destruct (complete_entry e) eqn:Ee; simpl.
  - intro H. destruct (complete_entry_row e Ee) as (o & ->). simpl.
    destruct (IH H) as (x & -> & Hx). simpl. eauto.
  - intros _. destruct (incomplete_entry_raises e Ee) as (x & -> & Hx).
    simpl. eauto.
Qed.

Lemma not_request_exception x :
  exn_cls x = KeyError \/ exn_cls x = TypeError -> is_RequestException x = false.
Proof.
  unfold is_RequestException. intros [-> | ->]; reflexivity.
Qed.

Section LiveFacts.

Variable convert_column : list json -> outcome (json -> value).

(** The frame has the rows of the list of dicts, each cell converted as its
    column is. *)
Lemma pd_DataFrame_Ok rows out :
  pd_DataFrame convert_column rows = Ok out ->
  exists n w p la lo,
    convert_column (map lName rows) = Ok n /\
    convert_column (map lWind rows) = Ok w /\
    convert_column (map lPressure rows) = Ok p /\
    convert_column (map lLatitude rows) = Ok la /\
    convert_column (map lLongitude rows) = Ok lo /\
    Forall2 (converted n w p la lo) rows out.
Proof.
  unfold pd_DataFrame. intro H.
  apply bind_Ok in H as (n & En & H).
  apply bind_Ok in H as (w & Ew & H).
  apply bind_Ok in H as (p & Ep & H).
  apply bind_Ok in H as (la & Ela & H).
  apply bind_Ok in H as (lo & Elo & H).
  injection H as <-.
  exists n, w, p, la, lo. repeat (split; [assumption|]).
  apply Forall2_map_r. intro a. unfold converted. simpl. auto.
Qed.


(** The body returns a frame only from a non-empty list of entries that are
    dicts with the five keys. *)
Lemma real_time_body_present r out :
  real_time_body convert_column r = Ok (Some out) ->
  exists status fields items rows,
    r = Reply status (Some (JObj fields)) /\
    (400 <=? status) && (status <? 600) = false /\
    assoc "storms" fields = Some (JArr items) /\
    items <> [] /\
    Forall2 renamed items rows /\
    pd_DataFrame convert_column rows = Ok out.
Proof.
  unfold real_time_body. intro H.
  apply bind_Ok in H as (data & E & H).
  apply bind_Ok in H as (storms & E0 & H).
  apply bind_Ok in H as (entries & E1 & H).
  apply bind_Ok in H as (rows & E2 & H).
  destruct rows as [|row rows]; [discriminate|].
  apply bind_Ok in H as (t & Et & H). injection H as <-.
  apply get_json_Ok in E as (status & -> & Hs).
  destruct data as [|b|m ex|s|its|fs]; try discriminate E0.
  simpl in E0. injection E0 as E0.
  assert (Hitems : storms = JArr entries).
  { destruct storms as [|b|m ex|s|its|kv]; simpl in E1; try discriminate E1;
      injection E1 as <-.
    - apply mapM_storm_row_chars in E2. discriminate.
    - reflexivity.
    - apply mapM_storm_row_texts in E2. discriminate. }
  rewrite Hitems in E0. clear Hitems E1.
  assert (Hent : entries <> []).
  { intros ->. discriminate E2. }
  apply mapM_Ok in E2.
  exists status, fs, entries, (row :: rows). repeat split; try assumption.
  - destruct (assoc "storms" fs) as [v|]; [congruence|].
    injection E0 as E0. symmetry in E0. contradiction.
  - eapply Forall2_impl; [|exact E2]. intros a b. apply storm_row_Ok.
Qed.


End LiveFacts.



(** ** Errors and the page *)

Section LiveOutcome.

Variable convert_column : list json -> outcome (json -> value).

Lemma request_failure_raises r :
  request_failure r = true ->
  exists e, real_time_body convert_column r = Raise e /\ is_RequestException e = true.
Proof.
  unfold real_time_body.
  destruct r as [reason|status body]; simpl.
  - intros _. eexists. split; reflexivity.
  - destruct ((400 <=? status) && (status <? 600)); simpl.
    + intros _. eexists. split; reflexivity.
    + destruct body; simpl; [discriminate|].
      intros _. eexists. split; reflexivity.
Qed.

Lemma fetch_real_time_caught r e :
  real_time_body convert_column r = Raise e -> is_RequestException e = true ->
  fetch_real_time_cyclones convert_column r =
    ([st_error ("⚠️ Error fetching real-time cyclone data: " ++ exn_str e)], Ok None).
Proof.
  unfold fetch_real_time_cyclones. intros -> ->. reflexivity.
Qed.

Lemma pd_DataFrame_length rows out :
  pd_DataFrame convert_column rows = Ok out -> List.length out = List.length rows.
Proof.
  intro H. apply pd_DataFrame_Ok in H as (n & w & p & la & lo & _ & _ & _ & _ & _ & Hc).
  symmetry. exact (Forall2_length Hc).
Qed.

(** The four ways the live fetch can end. *)
Lemma fetch_real_time_shape r :
  (exists out, out <> [] /\
               fetch_real_time_cyclones convert_column r = ([], Ok (Some out))) \/
  fetch_real_time_cyclones convert_column r = ([], Ok None) \/
  (exists s, fetch_real_time_cyclones convert_column r = ([st_error s], Ok None)) \/
  (exists e, real_time_body convert_column r = Raise e /\
             is_RequestException e = false /\
             fetch_real_time_cyclones convert_column r = ([], Raise e)).
Proof.
  unfold fetch_real_time_cyclones.
  destruct (real_time_body convert_column r) as [[out|]|e] eqn:Hb.
  - left. exists out. split; [|reflexivity].
    apply real_time_body_present in Hb
      as (status & fields & items & rows & _ & _ & _ & Hne & Hren & Hdf).
    apply pd_DataFrame_length in Hdf. apply Forall2_length in Hren.
    intros ->. destruct items; [contradiction|].
    simpl in *. rewrite <- Hren in Hdf. discriminate Hdf.
  - right. left. reflexivity.
  - destruct (is_RequestException e) eqn:He.
    + right. right. left. eauto.
    + right. right. right. eauto.
Qed.

Lemma fetch_real_time_log r x :
  In x (fst (fetch_real_time_cyclones convert_column r)) -> exists s, x = st_error s.
Proof.
  destruct (fetch_real_time_shape r)
    as [(out & _ & ->)|[->|[(s & ->)|(e & _ & _ & ->)]]]; simpl;
    try contradiction.
  intros [<-|[]]. eauto.
Qed.

End LiveOutcome.

Lemma render_hist_no_live_table past t :
  ~ In (st_write_live t) (render_hist past).
Proof.
  destruct past; simpl; intuition discriminate.
Qed.

Section PageFacts.

Context {O : key_order}.
Variable to_datetime : list cell -> string -> outcome timestamp.
Variable convert_column : list json -> outcome (json -> value).
Variable scatter_mapbox_error : list frame_row -> option exn.

Lemma fetch_last_50_caught r e :
  last_50_body to_datetime r = Raise e ->
  fetch_last_50_cyclones to_datetime r =
    ([st_error ("⚠️ Error fetching last 50 cyclones: " ++ exn_str e)], Ok None).
Proof.
  unfold fetch_last_50_cyclones. intros ->. reflexivity.
Qed.

(** The historical fetch returns: a table and no message, or one error
    message and no table. *)
Lemma fetch_last_50_returns r :
  exists log res,
    fetch_last_50_cyclones to_datetime r = (log, Ok res) /\
    ((exists t, log = [] /\ res = Some t) \/
     (exists s, log = [st_error s] /\ res = None)).
Proof.
  unfold fetch_last_50_cyclones.
  destruct (last_50_body to_datetime r) as [t|e]; eauto 10.
Qed.

Lemma fetch_last_50_absent r log :
  fetch_last_50_cyclones to_datetime r = (log, Ok None) ->
  exists e, last_50_body to_datetime r = Raise e.
Proof.
  unfold fetch_last_50_cyclones.
  destruct (last_50_body to_datetime r) as [t|e]; [discriminate | eauto].
Qed.

Lemma fetch_last_50_log r x :
  In x (fst (fetch_last_50_cyclones to_datetime r)) -> exists s, x = st_error s.
Proof.
  unfold fetch_last_50_cyclones.
  destruct (last_50_body to_datetime r); simpl; [contradiction|].
  intros [<-|[]]. eauto.
Qed.

Lemma csv_failure_raises r :
  csv_failure r = true -> exists e, last_50_body to_datetime r = Raise e.
Proof.
  unfold last_50_body, post_filter.
  destruct r as [reason|status body]; simpl.
  - eauto.
  - destruct ((200 <=? status) && (status <? 300)); simpl; [discriminate | eauto].
Qed.

(** The page when both fetches return and the live section runs to its
    end. *)
Lemma page_runs live hist log1 rt log2 past shown :
  fetch_real_time_cyclones convert_column live = (log1, Ok rt) ->
  fetch_last_50_cyclones to_datetime hist = (log2, Ok past) ->
  render_live scatter_mapbox_error rt = (shown, Ok tt) ->
  page to_datetime convert_column scatter_mapbox_error live hist =
    (page_title :: log1 ++ log2 ++ shown ++ render_hist past, Ok tt).
Proof.
  unfold page. intros -> -> ->. reflexivity.
Qed.

(** The page when the map of the live section is refused. *)
Lemma page_stops_at_map live hist log1 rt log2 past shown e :
  fetch_real_time_cyclones convert_column live = (log1, Ok rt) ->
  fetch_last_50_cyclones to_datetime hist = (log2, Ok past) ->
  render_live scatter_mapbox_error rt = (shown, Raise e) ->
  page to_datetime convert_column scatter_mapbox_error live hist =
    (page_title :: log1 ++ log2 ++ shown, Raise e).
Proof.
  unfold page. intros -> -> ->. reflexivity.
Qed.

Lemma render_live_ends rt :
  (exists shown, render_live scatter_mapbox_error rt = (shown, Ok tt)) \/
  (exists shown e, render_live scatter_mapbox_error rt = (shown, Raise e)).
Proof.
  unfold render_live. destruct rt as [t|]; [|eauto].
  destruct (scatter_mapbox_error t); eauto.
Qed.

Lemma render_live_In rt x :
  In x (fst (render_live scatter_mapbox_error rt)) ->
  x = st_success "✅ No active cyclones detected." \/
  exists t, rt = Some t /\
            (x = st_subheader "📌 Active Cyclones (Real-Time)" \/
             x = st_write_live t \/ x = st_plotly_chart (scatter_mapbox t)).
Proof.
  unfold render_live. destruct rt as [t|]; simpl.
  - destruct (scatter_mapbox_error t); simpl; intro H; right; exists t;
      split; try reflexivity; intuition.
  - intros [<-|[]]. left; reflexivity.
Qed.

(** Where an event of the page comes from. *)
Lemma page_In live hist x :
  In x (fst (page to_datetime convert_column scatter_mapbox_error live hist)) ->
  x = page_title \/
  In x (fst (fetch_real_time_cyclones convert_column live)) \/
  exists rt,
    snd (fetch_real_time_cyclones convert_column live) = Ok rt /\
    (In x (fst (fetch_last_50_cyclones to_datetime hist)) \/
     In x (fst (render_live scatter_mapbox_error rt)) \/
     exists past,
       snd (fetch_last_50_cyclones to_datetime hist) = Ok past /\
       In x (render_hist past)).
Proof.
  unfold page.
  destruct (fetch_real_time_cyclones convert_column live) as [log1 [rt|e]]; simpl;
    [|intros [H|H]; auto].
  destruct (fetch_last_50_cyclones to_datetime hist) as [log2 [past|e]]; simpl.
  - destruct (render_live scatter_mapbox_error rt) as [shown [u|e]] eqn:Er; simpl.
    + intros [H|H]; [auto|]. right.
      apply in_app_or in H as [H|H]; [auto|].
      right. exists rt. split; [reflexivity|]. rewrite Er. simpl.
      apply in_app_or in H as [H|H]; [auto|].
      apply in_app_or in H as [H|H]; [auto|].
      right. right. exists past. auto.
    + intros [H|H]; [auto|]. right.
      apply in_app_or in H as [H|H]; [auto|].
      right. exists rt. split; [reflexivity|]. rewrite Er. simpl.
      apply in_app_or in H as [H|H]; auto.
  - intros [H|H]; auto. right.
    apply in_app_or in H as [H|H]; auto. right. exists rt. auto.
Qed.

(** C7.  On a live reply whose body is the object with an empty "storms"
    list the live fetch returns nothing and logs nothing, and the page,
    whatever the historical feed, shows the success message "No active
    cyclones detected." in the place of the live table and map: no live
    table is written. *)
Theorem C7_empty_storm_list status hist :
  (400 <=? status) && (status <? 600) = false ->
  fetch_real_time_cyclones convert_column (Reply status (Some no_storms))
    = ([], Ok None) /\
  exists log past,
    fetch_last_50_cyclones to_datetime hist = (log, Ok past) /\
    page to_datetime convert_column scatter_mapbox_error
         (Reply status (Some no_storms)) hist =
      (page_title :: log ++ st_success "✅ No active cyclones detected."
                  :: render_hist past, Ok tt) /\
    forall t, ~ In (st_write_live t)
                (fst (page to_datetime convert_column scatter_mapbox_error
                           (Reply status (Some no_storms)) hist)).
Proof.
  intro Hs.
  assert (Hrt : fetch_real_time_cyclones convert_column (Reply status (Some no_storms))
                = ([], Ok None)).
  { unfold fetch_real_time_cyclones, real_time_body. simpl. rewrite Hs. reflexivity. }
  split; [exact Hrt|].
  destruct (fetch_last_50_returns hist) as (log & past & Hh & Hshape).
  exists log, past. split; [exact Hh|].
  rewrite (page_runs _ _ _ _ _ _ _ Hrt Hh eq_refl). split; [reflexivity|].
  intros t. cbn [fst app].
  intros [H|H]; [discriminate|].
  apply in_app_or in H as [H|[H|H]].
  - destruct Hshape as [(t' & -> & _)|(s & -> & _)]; simpl in H;
      intuition discriminate.
  - discriminate.
  - exact (render_hist_no_live_table past t H).
Qed.


(** C8, as the script has it.  A transport failure or a 4xx/5xx status on
    the live feed makes the live fetch log one error message and return
    nothing; the page then runs to its end for every historical reply, and
    shows what the historical fetch gives for that reply.  A transport
    failure or a status outside 2xx on the historical feed makes the
    historical fetch log one error message and return nothing; the page
    then shows whatever the live fetch returns for its own reply and ends as
    the live section ends: with the warning when that section runs to its
    end, at the map when [px.scatter_mapbox] refuses the live table. *)
Theorem C8_request_failure_is_contained :
  (forall live hist,
      live_failure live = true ->
      exists msg log past,
        fetch_real_time_cyclones convert_column live = ([st_error msg], Ok None) /\
        fetch_last_50_cyclones to_datetime hist = (log, Ok past) /\
        page to_datetime convert_column scatter_mapbox_error live hist =
          (page_title :: st_error msg :: log
             ++ st_success "✅ No active cyclones detected." :: render_hist past,
           Ok tt)) /\
  (forall live hist,
      csv_failure hist = true ->
      exists msg,
        fetch_last_50_cyclones to_datetime hist = ([st_error msg], Ok None) /\
        forall log rt shown,
          fetch_real_time_cyclones convert_column live = (log, Ok rt) ->
          (render_live scatter_mapbox_error rt = (shown, Ok tt) ->
           page to_datetime convert_column scatter_mapbox_error live hist =
             (page_title :: log ++ st_error msg :: shown ++ render_hist None, Ok tt)) /\
          (forall e,
              render_live scatter_mapbox_error rt = (shown, Raise e) ->
              page to_datetime convert_column scatter_mapbox_error live hist =
                (page_title :: log ++ st_error msg :: shown, Raise e))).
Proof.
  split.
  - intros live hist Hl.
    assert (Hr : request_failure live = true).
    { destruct live; simpl in *; [reflexivity | rewrite Hl; reflexivity]. }
    apply (request_failure_raises convert_column) in Hr as (e & He & Hreq).
    pose proof (fetch_real_time_caught _ live e He Hreq) as Hrt.
    destruct (fetch_last_50_returns hist) as (log & past & Hh & _).
    eexists _, log, past. split; [exact Hrt|]. split; [exact Hh|].
    rewrite (page_runs _ _ _ _ _ _ _ Hrt Hh eq_refl). reflexivity.
  - intros live hist Hc.
    apply csv_failure_raises in Hc as (e & He).
    pose proof (fetch_last_50_caught hist e He) as Hh.
    eexists. split; [exact Hh|].
    intros log rt shown Hrt. split.
    + intro Hshown. rewrite (page_runs _ _ _ _ _ _ _ Hrt Hh Hshown). reflexivity.
    + intros e' Hshown.
      rewrite (page_stops_at_map _ _ _ _ _ _ _ _ Hrt Hh Hshown). reflexivity.
Qed.

(** C4, as the script has it.  Every row of the table the historical fetch
    returns comes from a row of the archive with a value in each of the
    seven columns, so a row that lacks one is left out.  When no row of
    the archive is complete, the fetch returns an empty table and logs
    nothing, and a page that runs to its end closes with the historical
    subheader, the empty table and its chart.  The page shows the warning
    only when the body of the historical fetch raised. *)
Theorem C4_incomplete_rows_dropped :
  (forall r df selected log out row,
      read_csv r = Ok df ->
      select_columns df = Ok selected ->
      fetch_last_50_cyclones to_datetime r = (log, Ok (Some out)) ->
      In row out ->
      exists raw, In raw selected /\ complete raw = true /\
                  convert to_datetime (map ISO_TIME (dropna selected)) raw = Ok row) /\
  (forall r df selected,
      read_csv r = Ok df ->
      select_columns df = Ok selected ->
      dropna selected = [] ->
      fetch_last_50_cyclones to_datetime r = ([], Ok (Some [])) /\
      forall live evs,
        page to_datetime convert_column scatter_mapbox_error live r = (evs, Ok tt) ->
        exists before : list ui,
          evs = (before ++ [st_subheader "📜 Last 50 Cyclones (Historical)";
                            st_write_hist []; st_plotly_chart (line [])])%list) /\
  (forall live r s,
      In (st_warning s)
         (fst (page to_datetime convert_column scatter_mapbox_error live r)) ->
      exists e, last_50_body to_datetime r = Raise e).
Proof.
  split; [|split].
  - intros r df selected log out row Hdf Hsel Hf Hrow.
    apply fetch_last_50_present in Hf as (l & Hl & -> & _).
    pose proof (latest_spec l row (post_filter_valid _ _ _ Hl) Hrow) as [Hin _].
    destruct (post_filter_source _ r l row Hl Hin)
      as (df' & sel' & raw & Hdf' & Hsel' & Hraw & Hc & Hconv).
    rewrite Hdf in Hdf'. injection Hdf' as <-.
    rewrite Hsel in Hsel'. injection Hsel' as <-.
    exists raw. auto.
  - intros r df selected Hdf Hsel Hempty.
    assert (Hf : fetch_last_50_cyclones to_datetime r = ([], Ok (Some []))).
    { unfold fetch_last_50_cyclones, last_50_body, post_filter.
      rewrite Hdf. simpl. rewrite Hsel. simpl. rewrite Hempty. reflexivity. }
    split; [exact Hf|].
    intros live evs Hp.
    destruct (fetch_real_time_cyclones convert_column live) as [log1 [rt|e]] eqn:Hl;
      [|unfold page in Hp; rewrite Hl in Hp; discriminate Hp].
    destruct (render_live_ends rt) as [(shown & Hs)|(shown & e & Hs)].
    + rewrite (page_runs _ _ _ _ _ _ _ Hl Hf Hs) in Hp. injection Hp as <-.
      exists (page_title :: log1 ++ shown). simpl. rewrite <- app_assoc. reflexivity.
    + rewrite (page_stops_at_map _ _ _ _ _ _ _ _ Hl Hf Hs) in Hp. discriminate Hp.
  - intros live r s Hin.
    apply page_In in Hin as [H|[H|(rt & _ & [H|[H|(past & Hpast & H)]])]].
    + discriminate H.
    + apply fetch_real_time_log in H as (s' & H). discriminate H.
    + apply fetch_last_50_log in H as (s' & H). discriminate H.
    + apply render_live_In in H as [H|(t & _ & [H|[H|H]])]; discriminate H.
    + destruct past as [t|].
      * simpl in H. intuition discriminate.
      * destruct (fetch_last_50_cyclones to_datetime r) as [log res] eqn:Hf.
        simpl in Hpast. subst res. exact (fetch_last_50_absent r log Hf).
Qed.

End PageFacts.

Lemma C7_empty_storm_list_witness :
  (400 <=? 200) && (200 <? 600) = false /\
  fetch_real_time_cyclones numpy_column (Reply 200 (Some no_storms)) = ([], Ok None) /\
  exists log past,
    fetch_last_50_cyclones iso_column three_storms = (log, Ok past) /\
    page iso_column numpy_column size_error (Reply 200 (Some no_storms)) three_storms =
      (page_title :: log ++ st_success "✅ No active cyclones detected."
                  :: render_hist past, Ok tt) /\
    forall t, ~ In (st_write_live t)
                (fst (page iso_column numpy_column size_error
                           (Reply 200 (Some no_storms)) three_storms)).
Proof.
  split; [reflexivity|].
  apply (C7_empty_storm_list iso_column numpy_column size_error 200 three_storms).
  reflexivity.
Defined.



(** C8 fails for a status outside 2xx that [raise_for_status] accepts: on a
    reply with status 300 and a well-formed body the live fetch logs no
    error and returns the table. *)
Lemma C8_counterexample :
  (200 <=? 300) && (300 <? 300) = false /\
  fetch_real_time_cyclones numpy_column (Reply 300 (Some one_storm))
    = ([], Ok (Some one_storm_frame)).
Proof. split; reflexivity. Qed.

(** A live feed that cannot be reached, beside a good archive; and an
    archive that cannot be reached, beside a live feed whose wind the map
    refuses: the page shows the historical error and the live table, and
    stops at the map. *)
Lemma C8_request_failure_is_contained_witness :
  (live_failure (Unreachable "Connection refused") = true /\
   exists msg log past,
     fetch_real_time_cyclones numpy_column (Unreachable "Connection refused")
       = ([st_error msg], Ok None) /\
     fetch_last_50_cyclones iso_column three_storms = (log, Ok past) /\
     page iso_column numpy_column size_error
          (Unreachable "Connection refused") three_storms =
       (page_title :: st_error msg :: log
          ++ st_success "✅ No active cyclones detected." :: render_hist past,
        Ok tt)) /\
  (csv_failure (Reply 503 None) = true /\
   exists msg,
     fetch_last_50_cyclones iso_column (Reply 503 None) = ([st_error msg], Ok None) /\
     page iso_column numpy_column size_error
          (Reply 200 (Some negative_wind)) (Reply 503 None) =
       ([page_title; st_error msg;
         st_subheader "📌 Active Cyclones (Real-Time)";
         st_write_live negative_wind_frame],
        Raise (mkExn ValueError "Invalid element(s) received for the 'size' property"))).
Proof.
  split.
  - split; [reflexivity|].
    apply (proj1 (C8_request_failure_is_contained iso_column numpy_column size_error)
                 (Unreachable "Connection refused") three_storms).
    reflexivity.
  - split; [reflexivity|].
    destruct (proj2 (C8_request_failure_is_contained iso_column numpy_column size_error)
                    (Reply 200 (Some negative_wind)) (Reply 503 None) eq_refl)
      as (msg & Hf & Hpage).
    exists msg. split; [exact Hf|].
    refine (proj2 (Hpage [] (Some negative_wind_frame) _ _) _ _);
      vm_compute; reflexivity.
Defined.

(** C4 fails in its second half: in this archive no row is complete, so no
    row survives; the fetch still returns a table, the empty one, and the
    page shows the historical subheader, table and chart, not the warning. *)
Lemma C4_counterexample :
  post_filter iso_column incomplete_archive = Ok [] /\
  fetch_last_50_cyclones iso_column incomplete_archive = ([], Ok (Some [])) /\
  page iso_column numpy_column size_error
       (Reply 200 (Some no_storms)) incomplete_archive =
    ([page_title;
      st_success "✅ No active cyclones detected.";
      st_subheader "📜 Last 50 Cyclones (Historical)";
      st_write_hist [];
      st_plotly_chart (line [])], Ok tt).
Proof. repeat split; vm_compute; reflexivity. Qed.

(** An archive with a complete row and a row without wind: the table holds
    the complete row only.  An archive without any complete row: the empty
    table is shown.  An archive that cannot be reached: the warning. *)
Lemma C4_incomplete_rows_dropped_witness :
  (fetch_last_50_cyclones iso_column (Reply 200 (Some patchy_frame))
     = ([], Ok (Some [patchy_ana])) /\
   exists raw, In raw patchy_selected /\ complete raw = true /\
               convert iso_column (map ISO_TIME (dropna patchy_selected)) raw
                 = Ok patchy_ana) /\
  (dropna incomplete_selected = [] /\
   fetch_last_50_cyclones iso_column incomplete_archive = ([], Ok (Some [])) /\
   forall live evs,
     page iso_column numpy_column size_error live incomplete_archive = (evs, Ok tt) ->
     exists before : list ui,
       evs = (before ++ [st_subheader "📜 Last 50 Cyclones (Historical)";
                         st_write_hist []; st_plotly_chart (line [])])%list) /\
  (In (st_warning "⚠️ Could not retrieve the last 50 cyclones.")
      (fst (page iso_column numpy_column size_error
                 (Reply 200 (Some no_storms)) (Unreachable "timed out"))) /\
   exists e, last_50_body iso_column (Unreachable "timed out") = Raise e).
Proof.
  pose proof (C4_incomplete_rows_dropped iso_column numpy_column size_error)
    as (Hrows & Hempty & Hwarn).
  split; [|split].
  - split; [vm_compute; reflexivity|].
    apply (Hrows (Reply 200 (Some patchy_frame)) patchy_frame patchy_selected
                 [] [patchy_ana] patchy_ana).
    + reflexivity.
    + reflexivity.
    + vm_compute; reflexivity.
    + simpl; auto.
  - split; [reflexivity|].
    apply (Hempty incomplete_archive incomplete_frame incomplete_selected);
      reflexivity.
  - assert (Hin : In (st_warning "⚠️ Could not retrieve the last 50 cyclones.")
                     (fst (page iso_column numpy_column size_error
                                (Reply 200 (Some no_storms)) (Unreachable "timed out"))))
      by (vm_compute; auto 10).
    split; [exact Hin|].
    exact (Hwarn _ _ _ Hin).
Defined.

(** * Further properties of the historical rollup (lines 53-54) *)

Lemma skipn_In {A} n (l : list A) x : In x (skipn n l) -> In x l.
Proof.
  intro H. rewrite <- (firstn_skipn n l). apply in_or_app. right; assumption.
Qed.

(** In a sorted list, what [head n] keeps comes before what it cuts. *)
Lemma head_before_rest {A} (R : A -> A -> Prop) n :
  forall l a b,
    StronglySorted R l -> In a (head n l) -> In b (skipn n l) -> R a b.
Proof.
  unfold head. induction n as [|n IH]; intros [|x l] a b Hs Ha Hb; simpl in *;
    try contradiction.
  apply StronglySorted_inv in Hs as [Hs Hx]. rewrite Forall_forall in Hx.
  destruct Ha as [<-|Ha].
  - apply Hx. exact (skipn_In n l b Hb).
  - exact (IH l a b Hs Ha Hb).
Qed.

Lemma filter_perm {A} (f : A -> bool) l1 l2 :
  Permutation l1 l2 -> Permutation (filter f l1) (filter f l2).
Proof.
  induction 1 as [|x l l' _ IH|x y l|l l' l'' _ IH1 _ IH2]; simpl.
  - constructor.
  - destruct (f x); [constructor|]; exact IH.
  - destruct (f x), (f y); try reflexivity. apply perm_swap.
  - etransitivity; eassumption.
Qed.

Lemma filter_none {A} (f : A -> bool) l :
  (forall y, In y l -> f y = false) -> filter f l = [].
Proof.
  induction l as [|x l IH]; simpl; intro H; [reflexivity|].
  rewrite (H x (or_introl eq_refl)). apply IH. auto.
Qed.

Lemma valid_name x : valid x = true -> exists k, Name x = Some k.
Proof.
  unfold valid. destruct (Name x) as [k|]; [eauto | discriminate].
Qed.

Lemma in_group_other k k' y :
  Name y = Some k' -> k <> k' -> in_group k y = false.
Proof.
  unfold in_group. intros -> Hne. apply String.eqb_neq. congruence.
Qed.

Lemma first_single k a : valid a = true -> Name a = Some k -> first k [a] = a.
Proof.
  intros Hv Hk. apply first_head; try assumption. repeat constructor.
Qed.

Section RollupMore.

Context {O : key_order}.

(** Two strictly ascending lists of names with the same members are equal. *)
Lemma name_sorted_unique ks1 :
  forall ks2,
    StronglySorted name_lt ks1 -> StronglySorted name_lt ks2 ->
    (forall k, In k ks1 <-> In k ks2) -> ks1 = ks2.
Proof.
  induction ks1 as [|a l1 IH]; intros [|b l2] H1 H2 Hmem.
  - reflexivity.
  - exfalso. apply (proj2 (Hmem b)). left; reflexivity.
  - exfalso. apply (proj1 (Hmem a)). left; reflexivity.
  - apply StronglySorted_inv in H1 as [H1 Ha].
    apply StronglySorted_inv in H2 as [H2 Hb].
    rewrite Forall_forall in Ha, Hb.
    assert (Eab : a = b).
    { destruct (proj1 (Hmem a) (or_introl eq_refl)) as [E|Hin]; [congruence|].
      destruct (proj2 (Hmem b) (or_introl eq_refl)) as [E|Hin']; [assumption|].
      exfalso. apply (name_lt_irrefl a).
      eapply name_lt_trans; [apply Ha, Hin' | apply Hb, Hin]. }
    subst b. f_equal. apply IH; try assumption.
    intro k. split; intro Hk.
    + destruct (proj1 (Hmem k) (or_intror Hk)) as [E|Hin]; [|assumption].
      subst k. exfalso. exact (name_lt_irrefl a (Ha a Hk)).
    + destruct (proj2 (Hmem k) (or_intror Hk)) as [E|Hin]; [|assumption].
      subst k. exfalso. exact (name_lt_irrefl a (Hb a Hk)).
Qed.

Lemma group_keys_names l k : In k (group_keys l) <-> In (Some k) (map Name l).
Proof.
  rewrite group_keys_In, in_map_iff. split; intros (r & H1 & H2); eauto.
Qed.

(** The group keys depend on the names in the frame only, not on their
    order. *)
Lemma group_keys_same_names l1 l2 :
  Permutation (map Name l1) (map Name l2) -> group_keys l1 = group_keys l2.
Proof.
  intro P. apply name_sorted_unique; try apply group_keys_sorted.
  intro k. rewrite !group_keys_names. split; intro H.
  - eapply Permutation_in; eassumption.
  - eapply Permutation_in; [symmetry|]; eassumption.
Qed.

Lemma group_keys_perm l1 l2 :
  Permutation l1 l2 -> group_keys l1 = group_keys l2.
Proof.
  intro P. apply group_keys_same_names, Permutation_map, P.
Qed.

Lemma groupby_first_names l :
  map Name (groupby_first l) = map Some (group_keys l).
Proof.
  unfold groupby_first. rewrite map_map. reflexivity.
Qed.

Lemma latest_names l :
  map Name (latest l) = map Some (head 50 (group_keys l)).
Proof.
  unfold latest, head.
  rewrite <- firstn_map, groupby_first_names, firstn_map.
  rewrite (group_keys_perm _ _ (sort_values_perm l)). reflexivity.
Qed.

Lemma insert_key_min k ks :
  Forall (name_lt k) ks -> insert_key k ks = k :: ks.
Proof.
  destruct 1 as [|k' ks Hk _]; simpl; [reflexivity|].
  unfold name_lt in Hk. rewrite Hk. reflexivity.
Qed.

Lemma row_name_lt_names a y k :
  row_name_lt a y -> Name a = Some k -> exists k', Name y = Some k' /\ name_lt k k'.
Proof.
  unfold row_name_lt. intros H Ha. rewrite Ha in H.
  destruct (Name y) as [k'|]; [eauto | contradiction].
Qed.

(** On a table already in name order the group keys are its names. *)
Lemma group_keys_name_sorted m :
  Forall (fun x => valid x = true) m -> StronglySorted row_name_lt m ->
  map Some (group_keys m) = map Name m.
Proof.
  intros Hv Hs. induction Hs as [|a m Hs IH Hall]; simpl; [reflexivity|].
  apply Forall_cons_iff in Hv as [Ha Hv].
  destruct (valid_name a Ha) as (k & Hk). rewrite Hk.
  rewrite insert_key_min.
  - simpl. f_equal. exact (IH Hv).
  - apply Forall_forall. intros k' Hk'.
    apply group_keys_In in Hk' as (y & Hy & Hn).
    rewrite Forall_forall in Hall.
    destruct (row_name_lt_names a y k (Hall y Hy) Hk) as (k'' & Hn' & Hlt).
    congruence.
Qed.

(** In a table in name order the group of a name is the one row that
    carries it. *)
Lemma group_single m a k :
  StronglySorted row_name_lt m -> In a m -> Name a = Some k -> group k m = [a].
Proof.
  intros Hs. induction Hs as [|x m Hs IH Hall]; intros Hin Hk; [contradiction|].
  rewrite Forall_forall in Hall. unfold group in *. simpl.
  destruct Hin as [->|Hin].
  - rewrite (proj2 (in_group_name k a) Hk). f_equal.
    apply filter_none. intros y Hy.
    destruct (row_name_lt_names a y k (Hall y Hy) Hk) as (k' & Hn & Hlt).
    apply (in_group_other k k' y Hn). intros ->. exact (name_lt_irrefl _ Hlt).
  - assert (Hx : in_group k x = false).
    { pose proof (Hall a Hin) as Hxa. unfold row_name_lt in Hxa. rewrite Hk in Hxa.
      destruct (Name x) as [kx|] eqn:Ex; [|contradiction].
      apply (in_group_other k kx x Ex). intros ->. exact (name_lt_irrefl _ Hxa). }
    rewrite Hx. exact (IH Hin Hk).
Qed.

Lemma latest_fixed m :
  Forall (fun x => valid x = true) m -> StronglySorted row_name_lt m ->
  (List.length m <= 50)%nat ->
  latest m = m.
Proof.
  intros Hv Hs Hlen. unfold latest, head, groupby_first.
  rewrite (group_keys_perm _ _ (sort_values_perm m)).
  pose proof (group_keys_name_sorted m Hv Hs) as Hkeys.
  assert (Hmap : forall keys m',
             map Some keys = map Name m' -> (forall a, In a m' -> In a m) ->
             map (fun k => first k (group k (sort_values_desc m))) keys = m').
  { induction keys as [|k keys IH]; intros [|a m'] E Hsub; simpl in *;
      try discriminate; [reflexivity|].
    injection E as Ek E. f_equal.
    - assert (Ham : In a m) by auto.
      assert (Hg : group k (sort_values_desc m) = [a]).
      { apply Permutation_length_1_inv. rewrite <- (group_single m a k Hs Ham); auto.
        unfold group. apply filter_perm. symmetry. apply sort_values_perm. }
      rewrite Hg. apply first_single; [|auto].
      rewrite Forall_forall in Hv. auto.
    - apply IH; auto. }
  rewrite (Hmap _ m Hkeys (fun a H => H)).
  apply firstn_all2. exact Hlen.
Qed.

(** X6.  The rollup of lines 53-54 is idempotent on rows without missing
    cells: applied to its own result it changes nothing. *)
Theorem latest_idempotent l :
  Forall (fun x => valid x = true) l ->
  latest (latest l) = latest l.
Proof.
  intro Hv. apply latest_fixed.
  - apply Forall_forall. intros x Hx.
    destruct (latest_spec l x Hv Hx) as [Hin _].
    rewrite Forall_forall in Hv. auto.
  - apply latest_sorted.
  - apply latest_length.
Qed.

Variable to_datetime : list cell -> string -> outcome timestamp.

(** X1.  No cell of the six columns Name, Year, Wind Speed, Pressure,
    Latitude and Longitude of the returned table is missing. *)
Theorem hist_table_has_no_missing_cell r log out row :
  fetch_last_50_cyclones to_datetime r = (log, Ok (Some out)) ->
  In row out ->
  valid row = true.
Proof.
  intros Hf Hrow.
  apply fetch_last_50_present in Hf as (l & Hl & -> & _).
  pose proof (post_filter_valid _ _ _ Hl) as Hv.
  destruct (latest_spec l row Hv Hrow) as [Hin _].
  rewrite Forall_forall in Hv. auto.
Qed.


(** X3.  When the surviving rows carry at most fifty distinct names, no storm
    is lost: the name of every surviving row is the name of a row of the
    table. *)
Theorem hist_table_keeps_every_name r log out :
  fetch_last_50_cyclones to_datetime r = (log, Ok (Some out)) ->
  exists l,
    post_filter to_datetime r = Ok l /\
    ((List.length (group_keys l) <= 50)%nat ->
     forall x, In x l -> In (Name x) (map Name out)).
Proof.
  intro Hf. apply fetch_last_50_present in Hf as (l & Hl & -> & _).
  exists l. split; [exact Hl|].
  intros Hlen x Hx.
  pose proof (post_filter_valid _ _ _ Hl) as Hv. rewrite Forall_forall in Hv.
  destruct (valid_name x (Hv x Hx)) as (k & Hk).
  rewrite latest_names. unfold head. rewrite firstn_all2 by exact Hlen.
  rewrite Hk. apply in_map. apply group_keys_In. eauto.
Qed.

(** X4.  What [head(50)] cuts is decided by name alone: the name of a
    surviving row that has no row in the table comes, in the order of the
    keys of the Name column, after the name of every row of the table. *)
Theorem hist_table_cuts_last_names r log out :
  fetch_last_50_cyclones to_datetime r = (log, Ok (Some out)) ->
  exists l,
    post_filter to_datetime r = Ok l /\
    forall row x,
      In row out -> In x l -> ~ In (Name x) (map Name out) ->
      row_name_lt row x.
Proof.
  intro Hf. apply fetch_last_50_present in Hf as (l & Hl & -> & _).
  exists l. split; [exact Hl|].
  intros row x Hrow Hx Hout.
  pose proof (post_filter_valid _ _ _ Hl) as Hv. rewrite Forall_forall in Hv.
  destruct (valid_name x (Hv x Hx)) as (kx & Hkx).
  rewrite latest_names, Hkx in Hout.
  assert (Hkeys : In kx (group_keys l)) by (apply group_keys_In; eauto).
  assert (Hcut : In kx (skipn 50 (group_keys l))).
  { rewrite <- (firstn_skipn 50 (group_keys l)) in Hkeys.
    apply in_app_or in Hkeys as [Hk|Hk]; [|exact Hk].
    exfalso. apply Hout. apply in_map. exact Hk. }
  assert (Hr : In (Name row) (map Name (latest l))) by (apply in_map; exact Hrow).
  rewrite latest_names in Hr. apply in_map_iff in Hr as (kr & Hkr & Hin).
  unfold row_name_lt. rewrite <- Hkr, Hkx.
  exact (head_before_rest name_lt 50 _ kr kx (group_keys_sorted l) Hin Hcut).
Qed.

End RollupMore.

(** * When the historical fetch fails and when it returns *)

Lemma index_of_In c cols : In c cols -> exists i, index_of c cols = Some i.
Proof.
  induction cols as [|c' cols IH]; simpl; [contradiction|].
  intros [->|Hin].
  - rewrite String.eqb_refl. eauto.
  - destruct (String.eqb c c'); [eauto|].
    destruct (IH Hin) as (i & ->). eauto.
Qed.

Lemma index_of_None c cols : ~ In c cols -> index_of c cols = None.
Proof.
  induction cols as [|c' cols IH]; simpl; [reflexivity|].
  intro H. destruct (String.eqb_spec c c') as [->|_]; [tauto|].
  rewrite IH; tauto.
Qed.

Lemma select_columns_missing df c :
  In c required_columns -> ~ In c (columns df) ->
  exists e, select_columns df = Raise e /\ exn_cls e = KeyError.
Proof.
  intros Hc Hn. apply index_of_None in Hn.
  unfold select_columns, column.
  simpl in Hc.
  repeat (destruct Hc as [<-|Hc];
          [repeat (rewrite Hn; simpl; eauto);
           repeat match goal with
                  | |- context [index_of ?x (columns df)] =>
                      lazymatch goal with
                      | H : index_of x (columns df) = _ |- _ => rewrite H
                      | _ => destruct (index_of x (columns df)) eqn:?
                      end; simpl; eauto
                  end |]).
  contradiction.
Qed.

Lemma select_columns_present df :
  (forall c, In c required_columns -> In c (columns df)) ->
  exists sel, select_columns df = Ok sel.
Proof.
  intro H. unfold select_columns, column.
  repeat match goal with
         | |- context [index_of ?x (columns df)] =>
             let i := fresh "i" in
             let E := fresh "E" in
             destruct (index_of_In x (columns df)) as (i & E);
             [apply H; simpl; tauto | rewrite E; simpl]
         end.
  eauto.
Qed.

(** The selection reads each row on its own, with the positions the header
    gives. *)
Lemma select_columns_rows cols rows1 sel1 :
  select_columns (mkDF cols rows1) = Ok sel1 ->
  exists F, sel1 = map F rows1 /\
            forall rows2, select_columns (mkDF cols rows2) = Ok (map F rows2).
Proof.
  unfold select_columns, column. simpl.
  repeat match goal with
         | |- context [index_of ?c cols] => destruct (index_of c cols); simpl
         end;
    try discriminate.
  intro H. injection H as <-. eexists. split; reflexivity.
Qed.

Section HistoricalOutcome.

Context {O : key_order}.
Variable to_datetime : list cell -> string -> outcome timestamp.

Lemma convert_dates_names kept l :
  convert_dates to_datetime kept = Ok l -> map Name l = map NAME kept.
Proof.
  unfold convert_dates. generalize (map ISO_TIME kept) as col. intros col H.
  apply mapM_Ok in H. induction H as [|raw h kept l Hc _ IH]; simpl; [reflexivity|].
  apply convert_Ok in Hc as (-> & _). f_equal. exact IH.
Qed.

(** X5.  Which storms the table shows does not depend on the order of the
    data lines of the archive: when the fetch returns a table for a frame
    and for the same frame with its rows rearranged, the two tables carry
    the same names, row by row.  (Whether the timestamps are accepted, and
    the dates shown, can depend on the order.) *)
Theorem hist_table_names_ignore_line_order status cols rows1 rows2 log1 out1 log2 out2 :
  Permutation rows1 rows2 ->
  fetch_last_50_cyclones to_datetime (Reply status (Some (mkDF cols rows1)))
    = (log1, Ok (Some out1)) ->
  fetch_last_50_cyclones to_datetime (Reply status (Some (mkDF cols rows2)))
    = (log2, Ok (Some out2)) ->
  map Name out1 = map Name out2.
Proof.
  intros P H1 H2.
  apply fetch_last_50_present in H1 as (l1 & Hl1 & -> & _).
  apply fetch_last_50_present in H2 as (l2 & Hl2 & -> & _).
  rewrite !latest_names. f_equal. f_equal.
  apply group_keys_same_names.
  unfold post_filter in Hl1, Hl2.
  apply bind_Ok in Hl1 as (df1 & Hdf1 & Hl1).
  apply bind_Ok in Hl1 as (sel1 & Hsel1 & Hl1).
  apply bind_Ok in Hl2 as (df2 & Hdf2 & Hl2).
  apply bind_Ok in Hl2 as (sel2 & Hsel2 & Hl2).
  simpl in Hdf1, Hdf2.
  destruct ((200 <=? status) && (status <? 300)); [|discriminate].
  injection Hdf1 as <-. injection Hdf2 as <-.
  destruct (select_columns_rows cols rows1 sel1 Hsel1) as (F & -> & HF).
  rewrite (HF rows2) in Hsel2. injection Hsel2 as <-.
  rewrite (convert_dates_names _ _ Hl1), (convert_dates_names _ _ Hl2).
  apply Permutation_map. unfold dropna. apply filter_perm.
  apply Permutation_map. exact P.
Qed.

(** X7.  When the archive lacks one of the seven columns the historical
    fetch returns nothing and logs one error message: the KeyError of the
    column selection is caught. *)
Theorem hist_missing_column_is_caught r df c :
  read_csv r = Ok df ->
  In c required_columns -> ~ In c (columns df) ->
  exists e,
    exn_cls e = KeyError /\
    fetch_last_50_cyclones to_datetime r =
      ([st_error ("⚠️ Error fetching last 50 cyclones: " ++ exn_str e)], Ok None).
Proof.
  intros Hdf Hc Hn.
  destruct (select_columns_missing df c Hc Hn) as (e & He & Hcls).
  exists e. split; [exact Hcls|].
  unfold fetch_last_50_cyclones, last_50_body, post_filter.
  rewrite Hdf. simpl. rewrite He. reflexivity.
Qed.

(** X8.  One timestamp that [to_datetime] rejects, in a row that survives
    [dropna], fails the whole fetch: nothing is returned, not even the rows
    whose timestamps are fine, and one error message is logged. *)
Theorem hist_bad_timestamp_fails_fetch r df selected raw s e :
  read_csv r = Ok df ->
  select_columns df = Ok selected ->
  In raw selected -> complete raw = true ->
  ISO_TIME raw = Some s ->
  to_datetime (map ISO_TIME (dropna selected)) s = Raise e ->
  exists e',
    fetch_last_50_cyclones to_datetime r =
      ([st_error ("⚠️ Error fetching last 50 cyclones: " ++ exn_str e')], Ok None).
Proof.
  intros Hdf Hsel Hraw Hc Hs He.
  assert (Hconv : convert to_datetime (map ISO_TIME (dropna selected)) raw = Raise e).
  { unfold convert. rewrite Hs, He. reflexivity. }
  assert (Hin : In raw (dropna selected)) by (apply filter_In; auto).
  destruct (mapM_Raise _ _ raw e Hin Hconv) as (e' & He').
  exists e'.
  unfold fetch_last_50_cyclones, last_50_body, post_filter, convert_dates.
  rewrite Hdf. simpl. rewrite Hsel. simpl. rewrite He'. reflexivity.
Qed.

(** X9.  The fetch returns a table, and logs nothing, as soon as the reply
    decodes to a frame that has the seven columns and [to_datetime], on the
    Date column of the rows that survive [dropna], accepts every cell of
    that column. *)
Theorem hist_fetch_returns_table r df :
  read_csv r = Ok df ->
  (forall c, In c required_columns -> In c (columns df)) ->
  (forall selected raw s,
      select_columns df = Ok selected ->
      In raw selected -> complete raw = true -> ISO_TIME raw = Some s ->
      exists t, to_datetime (map ISO_TIME (dropna selected)) s = Ok t) ->
  exists out, fetch_last_50_cyclones to_datetime r = ([], Ok (Some out)).
Proof.
  intros Hdf Hcols Hdates.
  destruct (select_columns_present df Hcols) as (sel & Hsel).
  destruct (mapM_total (convert to_datetime (map ISO_TIME (dropna sel))) (dropna sel))
    as (l & Hl).
  { intros raw Hin. apply filter_In in Hin as [Hin Hc].
    unfold convert. destruct (ISO_TIME raw) as [s|] eqn:Es.
    - destruct (Hdates sel raw s Hsel Hin Hc Es) as (t & ->). simpl. eauto.
    - simpl. eauto. }
  exists (latest l).
  unfold fetch_last_50_cyclones, last_50_body, post_filter, convert_dates.
  rewrite Hdf. simpl. rewrite Hsel. simpl. rewrite Hl. reflexivity.
Qed.

End HistoricalOutcome.

(** X10.  Rows that [dropna] removes are never parsed: two timestamp parsers
    that agree on the ISO_TIME cells of the complete rows, in the column of
    those rows, give the same result, so a malformed timestamp in an
    incomplete row is harmless. *)
Theorem hist_fetch_parses_surviving_rows_only {O : key_order} td1 td2 r :
  (forall df selected raw s,
      read_csv r = Ok df -> select_columns df = Ok selected ->
      In raw selected -> complete raw = true -> ISO_TIME raw = Some s ->
      td1 (map ISO_TIME (dropna selected)) s = td2 (map ISO_TIME (dropna selected)) s) ->
  fetch_last_50_cyclones td1 r = fetch_last_50_cyclones td2 r.
Proof.
  intro H. unfold fetch_last_50_cyclones, last_50_body, post_filter, convert_dates.
  destruct (read_csv r) as [df|e] eqn:Hdf; simpl; [|reflexivity].
  destruct (select_columns df) as [sel|e] eqn:Hsel; simpl; [|reflexivity].
  rewrite (mapM_ext_in (convert td1 (map ISO_TIME (dropna sel)))
                       (convert td2 (map ISO_TIME (dropna sel)))); [reflexivity|].
  intros raw Hin. apply filter_In in Hin as [Hin Hc].
  unfold convert. destruct (ISO_TIME raw) as [s|] eqn:Es; [|reflexivity].
  rewrite (H df sel raw s eq_refl Hsel Hin Hc Es). reflexivity.
Qed.

(** * When the live fetch returns a table, nothing, or stops *)

Section LiveMore.

Variable convert_column : list json -> outcome (json -> value).

(** X11.  The live fetch returns the frame [pd.DataFrame] builds, and logs
    nothing, whenever the reply passes [raise_for_status], holds an object
    whose "storms" entry is a non-empty list of objects that each have the
    five keys, and [pd.DataFrame] accepts the rows; the rows given to
    [pd.DataFrame] are the entries, in order, with the five values
    unchanged. *)
Theorem live_fetch_returns_table status fields items :
  (400 <=? status) && (status <? 600) = false ->
  assoc "storms" fields = Some (JArr items) ->
  items <> [] ->
  forallb complete_entry items = true ->
  exists rows,
    Forall2 renamed items rows /\
    forall out,
      pd_DataFrame convert_column rows = Ok out ->
      fetch_real_time_cyclones convert_column (Reply status (Some (JObj fields)))
        = ([], Ok (Some out)).
Proof.
  intros Hs Hst Hne Hall.
  destruct (mapM_total storm_row items) as (rows & Hrows).
  { intros e He. apply complete_entry_row.
    rewrite forallb_forall in Hall. auto. }
  exists rows. split.
  - pose proof (mapM_Ok _ _ _ Hrows) as HF.
    eapply Forall2_impl; [|exact HF]. intros a b. apply storm_row_Ok.
  - intros out Hout.
    unfold fetch_real_time_cyclones, real_time_body. simpl.
    rewrite Hs. simpl. rewrite Hst. simpl. rewrite Hrows. simpl.
    destruct rows as [|row rows].
    + apply mapM_nil in Hrows. contradiction.
    + rewrite Hout. reflexivity.
Qed.

(** X13.  A body that decodes to something other than an object (a list, a
    string, a number, null) makes [data.get] raise AttributeError, which the
    live fetch does not catch. *)
Theorem live_body_not_object_raises status data :
  (400 <=? status) && (status <? 600) = false ->
  (forall fields, data <> JObj fields) ->
  exists x,
    exn_cls x = AttributeError /\
    fetch_real_time_cyclones convert_column (Reply status (Some data)) = ([], Raise x).
Proof.
  intros Hs Hd.
  unfold fetch_real_time_cyclones, real_time_body. simpl. rewrite Hs. simpl.
  destruct data as [|b|m ex|s|its|fs]; simpl;
    try (eexists; split; [|reflexivity]; reflexivity).
  exfalso. exact (Hd fs eq_refl).
Qed.

(** X14.  The live fetch returns nothing without a message exactly when the
    reply passes [raise_for_status], its body is an object, and the loop over
    its "storms" entry (an empty list when the key is absent) visits
    nothing. *)
Theorem live_fetch_silent_none r :
  fetch_real_time_cyclones convert_column r = ([], Ok None) <->
  exists status fields,
    r = Reply status (Some (JObj fields)) /\
    (400 <=? status) && (status <? 600) = false /\
    py_iter (match assoc "storms" fields with
             | Some v => v
             | None => JArr []
             end) = Ok [].
Proof.
  split.
  - unfold fetch_real_time_cyclones.
    destruct (real_time_body convert_column r) as [v|e] eqn:Hb;
      [|destruct (is_RequestException e); discriminate].
    intro H. injection H as ->.
    unfold real_time_body in Hb.
    apply bind_Ok in Hb as (data & E & Hb).
    apply bind_Ok in Hb as (storms & E0 & Hb).
    apply bind_Ok in Hb as (entries & E1 & Hb).
    apply bind_Ok in Hb as (rows & E2 & Hb).
    destruct rows as [|row rows].
    + apply mapM_nil in E2. subst entries.
      apply get_json_Ok in E as (status & -> & Hs).
      destruct data as [|b|m ex|s|its|fs]; try discriminate E0.
      simpl in E0. injection E0 as E0.
      exists status, fs. rewrite E0. auto.
    + apply bind_Ok in Hb as (t & _ & Hb). discriminate Hb.
  - intros (status & fields & -> & Hs & Hit).
    unfold fetch_real_time_cyclones, real_time_body. simpl.
    rewrite Hs. simpl. rewrite Hit. reflexivity.
Qed.

End LiveMore.

(** * The page as a whole *)

Section PageOutcome.

Context {O : key_order}.
Variable to_datetime : list cell -> string -> outcome timestamp.
Variable convert_column : list json -> outcome (json -> value).
Variable scatter_mapbox_error : list frame_row -> option exn.

(** X12.  The live table is all or nothing.  One entry of the storm list
    that is not an object, or lacks one of the five keys, makes the fetch
    stop with a KeyError or a TypeError: no table, no message, and the page
    ends after its title, before the historical feed is read. *)
Theorem live_bad_entry_stops_page status fields items hist :
  (400 <=? status) && (status <? 600) = false ->
  assoc "storms" fields = Some (JArr items) ->
  forallb complete_entry items = false ->
  exists x,
    (exn_cls x = KeyError \/ exn_cls x = TypeError) /\
    fetch_real_time_cyclones convert_column (Reply status (Some (JObj fields)))
      = ([], Raise x) /\
    page to_datetime convert_column scatter_mapbox_error
         (Reply status (Some (JObj fields))) hist = ([page_title], Raise x).
Proof.
  intros Hs Hst Hbad.
  destruct (mapM_storm_row_raises items Hbad) as (x & Hx & Hcls).
  assert (Hf : fetch_real_time_cyclones convert_column (Reply status (Some (JObj fields)))
               = ([], Raise x)).
  { unfold fetch_real_time_cyclones, real_time_body. simpl.
    rewrite Hs. simpl. rewrite Hst. simpl. rewrite Hx. simpl.
    rewrite (not_request_exception x Hcls). reflexivity. }
  exists x. split; [exact Hcls|]. split; [exact Hf|].
  unfold page. rewrite Hf. reflexivity.
Qed.

(** X15.  The page stops before its end in two cases only.  Either the body
    of the live fetch raised an exception that is not a RequestException:
    then only the title has been shown.  Or the live fetch returned a table
    and [px.scatter_mapbox] refused it: then the title, the message of the
    historical fetch if it failed, the live subheader and the live table
    have been shown.  No reply of the historical feed stops the page. *)
Theorem page_stops_only_in_live_section live hist evs e :
  page to_datetime convert_column scatter_mapbox_error live hist = (evs, Raise e) <->
  (real_time_body convert_column live = Raise e /\ is_RequestException e = false /\
   evs = [page_title]) \/
  (exists t log past,
      fetch_real_time_cyclones convert_column live = ([], Ok (Some t)) /\
      fetch_last_50_cyclones to_datetime hist = (log, Ok past) /\
      scatter_mapbox_error t = Some e /\
      evs = page_title :: log ++ [st_subheader "📌 Active Cyclones (Real-Time)";
                                  st_write_live t]).
Proof.
  split.
  - intro Hp.
    destruct (fetch_last_50_returns to_datetime hist) as (log2 & past & Hh & _).
    destruct (fetch_real_time_shape convert_column live)
      as [(out & _ & Hl)|[Hl|[(s & Hl)|(e' & Hb & He & Hl)]]].
    + right. exists out, log2, past. split; [exact Hl|]. split; [exact Hh|].
      unfold page in Hp. rewrite Hl, Hh in Hp. unfold render_live in Hp.
      destruct (scatter_mapbox_error out) as [e'|]; [|discriminate Hp].
      injection Hp as <- <-. auto.
    + rewrite (page_runs _ _ _ _ _ _ _ _ _ _ Hl Hh eq_refl) in Hp. discriminate Hp.
    + rewrite (page_runs _ _ _ _ _ _ _ _ _ _ Hl Hh eq_refl) in Hp. discriminate Hp.
    + left. unfold page in Hp. rewrite Hl in Hp. injection Hp as <- <-. auto.
  - intros [(Hb & He & ->)|(t & log & past & Hl & Hh & Hx & ->)].
    + unfold page, fetch_real_time_cyclones. rewrite Hb, He. reflexivity.
    + unfold page. rewrite Hl, Hh. unfold render_live. rewrite Hx. reflexivity.
Qed.

(** X16.  The live table the page writes is never empty: an empty storm
    list is turned into the "no active cyclones" message (line 32). *)
Theorem page_live_table_not_empty live hist t :
  In (st_write_live t)
     (fst (page to_datetime convert_column scatter_mapbox_error live hist)) ->
  t <> [].
Proof.
  intro Hin.
  apply page_In in Hin as [H|[H|(rt & Hrt & [H|[H|(past & _ & H)]])]].
  - discriminate H.
  - apply fetch_real_time_log in H as (s & H). discriminate H.
  - apply fetch_last_50_log in H as (s & H). discriminate H.
  - apply render_live_In in H as [H|(t' & -> & [H|[H|H]])]; try discriminate H.
    injection H as <-.
    destruct (fetch_real_time_shape convert_column live)
      as [(out & Hne & Hl)|[Hl|[(s & Hl)|(e' & _ & _ & Hl)]]];
      rewrite Hl in Hrt; simpl in Hrt; try discriminate Hrt.
    injection Hrt as <-. exact Hne.
  - destruct (render_hist_no_live_table past t H).
Qed.

End PageOutcome.

(** * Runs of the further properties on the sample feeds *)

Lemma hist_table_has_no_missing_cell_witness :
  fetch_last_50_cyclones iso_column three_storms = ([], Ok (Some three_storms_out)) /\
  In bill_latest three_storms_out /\
  valid bill_latest = true.
Proof.
  split; [vm_compute; reflexivity|]. split; [simpl; auto|].
  apply (hist_table_has_no_missing_cell iso_column three_storms [] three_storms_out).
  - vm_compute; reflexivity.
  - simpl; auto.
Defined.


Lemma hist_table_keeps_every_name_witness :
  exists l,
    post_filter iso_column three_storms = Ok l /\
    ((List.length (group_keys l) <= 50)%nat ->
     forall x, In x l -> In (Name x) (map Name three_storms_out)).
Proof.
  apply (hist_table_keeps_every_name iso_column three_storms []).
  vm_compute; reflexivity.
Defined.

Lemma hist_table_cuts_last_names_witness :
  exists out l,
    fetch_last_50_cyclones iso_column fifty_one_storms = ([], Ok (Some out)) /\
    post_filter iso_column fifty_one_storms = Ok l /\
    forall row x,
      In row out -> In x l -> ~ In (Name x) (map Name out) -> row_name_lt row x.
Proof.
  eexists.
  assert (Hf : fetch_last_50_cyclones iso_column fifty_one_storms
               = ([], Ok (Some (latest match post_filter iso_column fifty_one_storms with
                                       | Ok l => l
                                       | Raise _ => []
                                       end)))) by (vm_compute; reflexivity).
  destruct (hist_table_cuts_last_names iso_column fifty_one_storms [] _ Hf)
    as (l & Hl & H).
  exists l. split; [exact Hf|]. split; [exact Hl | exact H].
Defined.

Lemma hist_table_names_ignore_line_order_witness :
  Permutation three_storms_rows three_storms_shuffled /\
  fetch_last_50_cyclones iso_column
    (Reply 200 (Some (mkDF archive_header three_storms_shuffled)))
    = ([], Ok (Some three_storms_out)) /\
  map Name three_storms_out = map Name three_storms_out.
Proof.
  assert (P : Permutation three_storms_rows three_storms_shuffled) by apply perm_swap.
  split; [exact P|]. split; [vm_compute; reflexivity|].
  apply (hist_table_names_ignore_line_order iso_column 200 archive_header
           three_storms_rows three_storms_shuffled
           [] three_storms_out [] three_storms_out P);
    vm_compute; reflexivity.
Defined.

Lemma latest_idempotent_witness :
  Forall (fun x => valid x = true) [bill_latest; ana_latest; bill_latest] /\
  latest (latest [bill_latest; ana_latest; bill_latest])
    = latest [bill_latest; ana_latest; bill_latest].
Proof.
  assert (Hv : Forall (fun x => valid x = true) [bill_latest; ana_latest; bill_latest])
    by (repeat constructor).
  split; [exact Hv|].
  apply (latest_idempotent [bill_latest; ana_latest; bill_latest] Hv).
Defined.

Lemma hist_missing_column_is_caught_witness :
  read_csv (Reply 200 (Some no_lat_frame)) = Ok no_lat_frame /\
  In "LAT" required_columns /\ ~ In "LAT" (columns no_lat_frame) /\
  exists e,
    exn_cls e = KeyError /\
    fetch_last_50_cyclones iso_column (Reply 200 (Some no_lat_frame)) =
      ([st_error ("⚠️ Error fetching last 50 cyclones: " ++ exn_str e)], Ok None).
Proof.
  assert (Hin : In "LAT" required_columns) by (simpl; tauto).
  assert (Hn : ~ In "LAT" (columns no_lat_frame))
    by (simpl; intuition discriminate).
  split; [reflexivity|]. split; [exact Hin|]. split; [exact Hn|].
  apply (hist_missing_column_is_caught iso_column (Reply 200 (Some no_lat_frame))
           no_lat_frame "LAT" eq_refl Hin Hn).
Defined.

Lemma hist_bad_timestamp_fails_fetch_witness :
  select_columns garbled_frame = Ok garbled_selected /\
  iso_column (map ISO_TIME (dropna garbled_selected)) "yesterday"
    = Raise (bad_date "yesterday") /\
  exists e',
    fetch_last_50_cyclones iso_column (Reply 200 (Some garbled_frame)) =
      ([st_error ("⚠️ Error fetching last 50 cyclones: " ++ exn_str e')], Ok None).
Proof.
  split; [reflexivity|]. split; [reflexivity|].
  apply (hist_bad_timestamp_fails_fetch iso_column (Reply 200 (Some garbled_frame))
           garbled_frame garbled_selected
           (mkRaw (Some "BILL") (Some "2021") (Some "yesterday")
                  (Some "50") (Some "1000") (Some "10.5") (Some "-60.1"))
           "yesterday" (bad_date "yesterday")).
  - reflexivity.
  - reflexivity.
  - simpl; auto.
  - reflexivity.
  - reflexivity.
  - reflexivity.
Defined.

Lemma hist_fetch_returns_table_witness :
  exists out, fetch_last_50_cyclones iso_column three_storms = ([], Ok (Some out)).
Proof.
  apply (hist_fetch_returns_table iso_column three_storms three_storms_frame).
  - reflexivity.
  - intros c Hc. simpl in Hc. simpl.
    repeat (destruct Hc as [<-|Hc]; [tauto|]). contradiction.
  - intros selected raw s Hsel Hin _ Hs.
    vm_compute in Hsel. injection Hsel as <-.
    repeat (destruct Hin as [<-|Hin];
            [injection Hs as <-; eexists; vm_compute; reflexivity|]).
    contradiction.
Defined.

Lemma hist_fetch_parses_surviving_rows_only_witness :
  iso_column [] "yesterday" <> lenient_column [] "yesterday" /\
  fetch_last_50_cyclones iso_column (Reply 200 (Some patchy_frame))
    = fetch_last_50_cyclones lenient_column (Reply 200 (Some patchy_frame)).
Proof.
  split; [discriminate|].
  apply (hist_fetch_parses_surviving_rows_only iso_column lenient_column
           (Reply 200 (Some patchy_frame))).
  intros df selected raw s Hdf Hsel Hin Hc Hs.
  injection Hdf as <-. vm_compute in Hsel. injection Hsel as <-.
  destruct Hin as [<-|[<-|[]]]; [|discriminate Hc].
  injection Hs as <-. reflexivity.
Defined.

Lemma live_fetch_returns_table_witness :
  exists rows,
    Forall2 renamed mixed_winds_entries rows /\
    forall out,
      pd_DataFrame numpy_column rows = Ok out ->
      fetch_real_time_cyclones numpy_column (Reply 200 (Some mixed_winds))
        = ([], Ok (Some out)).
Proof.
  apply (live_fetch_returns_table numpy_column 200
           [("storms", JArr mixed_winds_entries)] mixed_winds_entries).
  - reflexivity.
  - reflexivity.
  - discriminate.
  - reflexivity.
Defined.

Lemma live_bad_entry_stops_page_witness :
  exists x,
    (exn_cls x = KeyError \/ exn_cls x = TypeError) /\
    fetch_real_time_cyclones numpy_column
      (Reply 200 (Some (JObj [("storms", JArr [ana_entry; JObj [("name", JStr "Bill")]])])))
      = ([], Raise x) /\
    page iso_column numpy_column size_error
      (Reply 200 (Some (JObj [("storms", JArr [ana_entry; JObj [("name", JStr "Bill")]])])))
      three_storms = ([page_title], Raise x).
Proof.
  apply (live_bad_entry_stops_page iso_column numpy_column size_error 200
           [("storms", JArr [ana_entry; JObj [("name", JStr "Bill")]])]
           [ana_entry; JObj [("name", JStr "Bill")]] three_storms).
  - reflexivity.
  - reflexivity.
  - reflexivity.
Defined.

Lemma live_body_not_object_raises_witness :
  exists x,
    exn_cls x = AttributeError /\
    fetch_real_time_cyclones numpy_column (Reply 200 (Some (JArr []))) = ([], Raise x).
Proof.
  apply (live_body_not_object_raises numpy_column 200 (JArr [])).
  - reflexivity.
  - discriminate.
Defined.

Lemma live_fetch_silent_none_witness :
  fetch_real_time_cyclones numpy_column
    (Reply 200 (Some (JObj [("advisories", JArr [])])))
    = ([], Ok None).
Proof.
  apply (proj2 (live_fetch_silent_none numpy_column
                  (Reply 200 (Some (JObj [("advisories", JArr [])]))))).
  exists 200, [("advisories", JArr [])]. repeat split.
Defined.

(** A page that stops after its title, and a page that stops at the map. *)
Lemma page_stops_only_in_live_section_witness :
  page iso_column numpy_column size_error
       (Reply 200 (Some storm_without_wind)) (Unreachable "timed out")
    = ([page_title], Raise (mkExn KeyError "wind")) /\
  page iso_column numpy_column size_error
       (Reply 200 (Some negative_wind)) three_storms
    = ([page_title;
        st_subheader "📌 Active Cyclones (Real-Time)";
        st_write_live negative_wind_frame],
       Raise (mkExn ValueError "Invalid element(s) received for the 'size' property")).
Proof.
  split.
  - apply (proj2 (page_stops_only_in_live_section iso_column numpy_column size_error
                    (Reply 200 (Some storm_without_wind)) (Unreachable "timed out")
                    [page_title] (mkExn KeyError "wind"))).
    left. repeat split.
  - apply (proj2 (page_stops_only_in_live_section iso_column numpy_column size_error
                    (Reply 200 (Some negative_wind)) three_storms _ _)).
    right. exists negative_wind_frame, [], (Some three_storms_out).
    repeat split; vm_compute; reflexivity.
Defined.

Lemma page_live_table_not_empty_witness :
  In (st_write_live one_storm_frame)
     (fst (page iso_column numpy_column size_error
                (Reply 200 (Some one_storm)) three_storms)) /\
  one_storm_frame <> [].
Proof.
  assert (H : In (st_write_live one_storm_frame)
                 (fst (page iso_column numpy_column size_error
                            (Reply 200 (Some one_storm)) three_storms)))
    by (vm_compute; auto).
  split; [exact H|].
  apply (page_live_table_not_empty iso_column numpy_column size_error
           (Reply 200 (Some one_storm)) three_storms one_storm_frame H).
Defined.
